(** * Stock tracker: the data schema of [app/models.py]

    The module is declarative: three enumerations, seven table models
    and eleven request/response shapes, each a list of annotated fields
    with [Field(...)] options.  The embedding keeps that form.  A model
    is a list of field declarations; the reading that SQLModel/pydantic
    give to a declaration (presence, [Optional], type, [max_length],
    [decimal_places], [regex], defaults) is the function [validate],
    for either major version of pydantic where the two differ; the
    reading that the database gives to it ([unique], [primary_key],
    [foreign_key], NOT NULL) is the predicate [valid_db]. *)

From Stdlib Require Import String Ascii List ZArith Bool Arith Lia.
Import ListNotations.
Open Scope string_scope.

Set Warnings "-register-all".

(** ** Enumerations *)

Inductive TransactionType := BUY | SELL.
Inductive AlertType := ABOVE | BELOW.
Inductive AlertStatus := ACTIVE | TRIGGERED | DISABLED.

(** The classes derive from [str]: each member carries its string value,
    and [AlertStatus("ACTIVE")] looks a member up by that value. *)
Module TransactionTypeEnum.
Definition members : list TransactionType := [BUY; SELL].
Definition value (t : TransactionType) : string :=
  match t with BUY => "BUY" | SELL => "SELL" end.
Definition of_value (s : string) : option TransactionType :=
  find (fun m => value m =? s) members.
End TransactionTypeEnum.

Module AlertTypeEnum.
Definition members : list AlertType := [ABOVE; BELOW].
Definition value (t : AlertType) : string :=
  match t with ABOVE => "ABOVE" | BELOW => "BELOW" end.
Definition of_value (s : string) : option AlertType :=
  find (fun m => value m =? s) members.
End AlertTypeEnum.

Module AlertStatusEnum.
Definition members : list AlertStatus := [ACTIVE; TRIGGERED; DISABLED].
Definition value (t : AlertStatus) : string :=
  match t with
  | ACTIVE => "ACTIVE" | TRIGGERED => "TRIGGERED" | DISABLED => "DISABLED"
  end.
Definition of_value (s : string) : option AlertStatus :=
  find (fun m => value m =? s) members.
End AlertStatusEnum.

(** ** Decimals, values and annotations *)

(** [decimal.Decimal]: a coefficient and a power of ten.  [Decimal("0")]
    is coefficient 0, exponent 0; [Decimal("1.50")] is 150 at -2. *)
Record Decimal := mkDecimal { coef : Z; dexp : Z }.

Definition Decimal_0 : Decimal := mkDecimal 0 0.

(** Number of decimal places as written: 0 for a non-negative exponent,
    its absolute value otherwise.  [Decimal("101.25000")] has five. *)
Definition decimals (d : Decimal) : nat := Z.to_nat (- dexp d).

Fixpoint drop_trailing_zeros (n : nat) (c : Z) : nat :=
  match n with
  | O => O
  | S n' => if (c mod 10 =? 0)%Z then drop_trailing_zeros n' (c / 10) else n
  end.

(** Number of decimal places of [d.normalize()]: trailing zeros do not
    count and a zero has none.  [Decimal("101.25000")] has two. *)
Definition normalized_places (d : Decimal) : nat :=
  if (coef d =? 0)%Z then O else drop_trailing_zeros (decimals d) (coef d).

Inductive Value :=
| VNone
| VInt (z : Z)
| VStr (s : string)
| VBool (b : bool)
| VDecimal (d : Decimal)
| VDatetime (t : Z)
| VTransactionType (t : TransactionType)
| VAlertType (t : AlertType)
| VAlertStatus (t : AlertStatus)
| VDict (kvs : list (string * Value))
| VList (xs : list Value).

(** Type annotations of the module.  [float_t] is listed because Python
    has it; no field of the module uses it. *)
Inductive PyType :=
| int_t | str_t | bool_t | float_t | Decimal_t | datetime_t
| TransactionType_t | AlertType_t | AlertStatus_t
| Dict_str_Any
| List_of (model : string)
| Optional (t : PyType).

Fixpoint base_type (t : PyType) : PyType :=
  match t with Optional t' => base_type t' | _ => t end.

Definition is_optional (t : PyType) : bool :=
  match t with Optional _ => true | _ => false end.

Definition PyType_eqb_simple (a b : PyType) : bool :=
  match a, b with
  | int_t, int_t | str_t, str_t | bool_t, bool_t | float_t, float_t
  | Decimal_t, Decimal_t | datetime_t, datetime_t
  | TransactionType_t, TransactionType_t | AlertType_t, AlertType_t
  | AlertStatus_t, AlertStatus_t | Dict_str_Any, Dict_str_Any => true
  | List_of m, List_of m' => m =? m'
  | _, _ => false
  end.

(** ** Regular expressions *)

Module Re.

(** A character class is a list of inclusive ranges; a literal is the
    range from a character to itself. *)
Definition CharClass := list (ascii * ascii).

Inductive Regex :=
| Zero
| Eps
| Class (c : CharClass)
| Seq (r s : Regex)
| Alt (r s : Regex)
| Star (r : Regex).

Definition Plus (r : Regex) : Regex := Seq r (Star r).
Definition Lit (c : ascii) : Regex := Class [(c, c)].

Definition in_class (c : ascii) (cls : CharClass) : bool :=
  existsb (fun rg => (nat_of_ascii (fst rg) <=? nat_of_ascii c)%nat
                     && (nat_of_ascii c <=? nat_of_ascii (snd rg))%nat) cls.

Fixpoint nullable (r : Regex) : bool :=
  match r with
  | Zero => false
  | Eps => true
  | Class _ => false
  | Seq r s => nullable r && nullable s
  | Alt r s => nullable r || nullable s
  | Star _ => true
  end.

Fixpoint deriv (c : ascii) (r : Regex) : Regex :=
  match r with
  | Zero => Zero
  | Eps => Zero
  | Class cls => if in_class c cls then Eps else Zero
  | Seq r s =>
      if nullable r then Alt (Seq (deriv c r) s) (deriv c s)
      else Seq (deriv c r) s
  | Alt r s => Alt (deriv c r) (deriv c s)
  | Star r => Seq (deriv c r) (Star r)
  end.

Fixpoint fullmatch (r : Regex) (s : string) : bool :=
  match s with
  | EmptyString => nullable r
  | String c s' => fullmatch (deriv c r) s'
  end.

Definition newline : ascii := ascii_of_nat 10.

Fixpoint chop_newline (s : string) : option string :=
  match s with
  | EmptyString => None
  | String c EmptyString =>
      if Ascii.eqb c newline then Some EmptyString else None
  | String c s' =>
      match chop_newline s' with
      | Some t => Some (String c t)
      | None => None
      end
  end.

(** [re.match] on a pattern written [^body$]: the body covers the whole
    string, or all of it but one final newline. *)
Definition anchored_match (body : Regex) (s : string) : bool :=
  fullmatch body s
  || match chop_newline s with
     | Some t => fullmatch body t
     | None => false
     end.

End Re.

(** The pattern of [User.email]:
    [^[a-zA-Z0-9_.+-]+@[a-zA-Z0-9-]+\.[a-zA-Z0-9-.]+$]. *)
Definition alnum : Re.CharClass :=
  [("a"%char, "z"%char); ("A"%char, "Z"%char); ("0"%char, "9"%char)].

Definition email_local : Re.CharClass :=
  (alnum ++ [("_"%char, "_"%char); ("."%char, "."%char);
             ("+"%char, "+"%char); ("-"%char, "-"%char)])%list.
Definition email_domain : Re.CharClass :=
  (alnum ++ [("-"%char, "-"%char)])%list.
Definition email_tld : Re.CharClass :=
  (alnum ++ [("-"%char, "-"%char); ("."%char, "."%char)])%list.

Definition email_regex : Re.Regex :=
  Re.Seq (Re.Plus (Re.Class email_local))
    (Re.Seq (Re.Lit "@"%char)
       (Re.Seq (Re.Plus (Re.Class email_domain))
          (Re.Seq (Re.Lit "."%char)
             (Re.Plus (Re.Class email_tld))))).

Fixpoint Value_eqb (a b : Value) {struct a} : bool :=
  match a, b with
  | VNone, VNone => true
  | VInt x, VInt y => Z.eqb x y
  | VStr x, VStr y => String.eqb x y
  | VBool x, VBool y => Bool.eqb x y
  | VDecimal x, VDecimal y => Z.eqb (coef x) (coef y) && Z.eqb (dexp x) (dexp y)
  | VDatetime x, VDatetime y => Z.eqb x y
  | VTransactionType x, VTransactionType y =>
      TransactionTypeEnum.value x =? TransactionTypeEnum.value y
  | VAlertType x, VAlertType y => AlertTypeEnum.value x =? AlertTypeEnum.value y
  | VAlertStatus x, VAlertStatus y =>
      AlertStatusEnum.value x =? AlertStatusEnum.value y
  | VDict xs, VDict ys =>
      (fix go (xs ys : list (string * Value)) : bool :=
         match xs, ys with
         | [], [] => true
         | (k, v) :: xs', (k', v') :: ys' =>
             String.eqb k k' && Value_eqb v v' && go xs' ys'
         | _, _ => false
         end) xs ys
  | VList xs, VList ys =>
      (fix go (xs ys : list Value) : bool :=
         match xs, ys with
         | [], [] => true
         | v :: xs', v' :: ys' => Value_eqb v v' && go xs' ys'
         | _, _ => false
         end) xs ys
  | _, _ => false
  end.

(** ** Field and model declarations *)

(** The keyword arguments of [Field(...)] that the module uses. *)
Inductive FieldOpt :=
| default (v : Value)
| default_factory_utcnow
| primary_key
| unique
| index
| foreign_key (table column : string)
| max_length (n : nat)
| decimal_places (n : nat)
| regex (r : Re.Regex)
| sa_column_JSON.

(** [name: annotation = Field(opts)]; a bare [name: annotation] has no
    options. *)
Record FieldDecl := mkField {
  fname : string;
  annotation : PyType;
  opts : list FieldOpt
}.

Inductive RelTarget := One (model : string) | Many (model : string).

(** [name: target = Relationship(back_populates=...)]. *)
Record RelDecl := mkRel {
  rname : string;
  rtarget : RelTarget;
  back_populates : option string
}.

Record ModelDecl := mkModel {
  mname : string;
  table : bool;
  tablename : option string;
  fields : list FieldDecl;
  relationships : list RelDecl
}.

Inductive DefaultSpec := NoDefault | DefaultValue (v : Value) | DefaultUtcnow.

Fixpoint opts_default (os : list FieldOpt) : DefaultSpec :=
  match os with
  | [] => NoDefault
  | default v :: _ => DefaultValue v
  | default_factory_utcnow :: _ => DefaultUtcnow
  | _ :: os' => opts_default os'
  end.

Fixpoint opts_max_length (os : list FieldOpt) : option nat :=
  match os with
  | [] => None
  | max_length n :: _ => Some n
  | _ :: os' => opts_max_length os'
  end.

Fixpoint opts_decimal_places (os : list FieldOpt) : option nat :=
  match os with
  | [] => None
  | decimal_places n :: _ => Some n
  | _ :: os' => opts_decimal_places os'
  end.

Fixpoint opts_regex (os : list FieldOpt) : option Re.Regex :=
  match os with
  | [] => None
  | regex r :: _ => Some r
  | _ :: os' => opts_regex os'
  end.

Fixpoint opts_foreign_key (os : list FieldOpt) : option (string * string) :=
  match os with
  | [] => None
  | foreign_key t c :: _ => Some (t, c)
  | _ :: os' => opts_foreign_key os'
  end.

Definition f_default (f : FieldDecl) := opts_default (opts f).
Definition f_max_length (f : FieldDecl) := opts_max_length (opts f).
Definition f_decimal_places (f : FieldDecl) := opts_decimal_places (opts f).
Definition f_regex (f : FieldDecl) := opts_regex (opts f).
Definition f_foreign_key (f : FieldDecl) := opts_foreign_key (opts f).
Definition f_unique (f : FieldDecl) : bool :=
  existsb (fun o => match o with unique => true | _ => false end) (opts f).
Definition f_primary_key (f : FieldDecl) : bool :=
  existsb (fun o => match o with primary_key => true | _ => false end) (opts f).

Definition field_names (m : ModelDecl) : list string := map fname (fields m).

Definition find_field (m : ModelDecl) (n : string) : option FieldDecl :=
  find (fun f => fname f =? n) (fields m).

Definition has_field (m : ModelDecl) (n : string) : bool :=
  existsb (String.eqb n) (field_names m).

Definition D0 : Value := VDecimal Decimal_0.

(** *** Persistent models (stored in database) *)

Definition User : ModelDecl :=
  mkModel "User" true (Some "users")
    [ mkField "id" (Optional int_t) [default VNone; primary_key];
      mkField "username" str_t [unique; max_length 50];
      mkField "email" str_t [unique; max_length 255; regex email_regex];
      mkField "full_name" str_t [max_length 100];
      mkField "is_active" bool_t [default (VBool true)];
      mkField "created_at" datetime_t [default_factory_utcnow];
      mkField "updated_at" datetime_t [default_factory_utcnow] ]
    [ mkRel "holdings" (Many "PortfolioHolding") (Some "user");
      mkRel "transactions" (Many "Transaction") (Some "user");
      mkRel "alerts" (Many "PriceAlert") (Some "user") ].

Definition Stock : ModelDecl :=
  mkModel "Stock" true (Some "stocks")
    [ mkField "id" (Optional int_t) [default VNone; primary_key];
      mkField "symbol" str_t [unique; max_length 10; index];
      mkField "name" str_t [max_length 200];
      mkField "exchange" str_t [max_length 50];
      mkField "sector" (Optional str_t) [default VNone; max_length 100];
      mkField "market_cap" (Optional Decimal_t) [default VNone; decimal_places 2];
      mkField "current_price" Decimal_t [decimal_places 4];
      mkField "previous_close" Decimal_t [decimal_places 4];
      mkField "day_change" Decimal_t [decimal_places 4];
      mkField "day_change_percent" Decimal_t [decimal_places 4];
      mkField "volume" int_t [default (VInt 0)];
      mkField "last_updated" datetime_t [default_factory_utcnow];
      mkField "is_active" bool_t [default (VBool true)];
      mkField "created_at" datetime_t [default_factory_utcnow];
      mkField "market_data" Dict_str_Any [default (VDict []); sa_column_JSON] ]
    [ mkRel "holdings" (Many "PortfolioHolding") (Some "stock");
      mkRel "transactions" (Many "Transaction") (Some "stock");
      mkRel "alerts" (Many "PriceAlert") (Some "stock");
      mkRel "price_history" (Many "StockPriceHistory") (Some "stock") ].

Definition PortfolioHolding : ModelDecl :=
  mkModel "PortfolioHolding" true (Some "portfolio_holdings")
    [ mkField "id" (Optional int_t) [default VNone; primary_key];
      mkField "user_id" int_t [foreign_key "users" "id"; index];
      mkField "stock_id" int_t [foreign_key "stocks" "id"; index];
      mkField "quantity" Decimal_t [decimal_places 6];
      mkField "average_cost" Decimal_t [decimal_places 4];
      mkField "total_invested" Decimal_t [decimal_places 2];
      mkField "current_value" Decimal_t [decimal_places 2; default D0];
      mkField "unrealized_gain_loss" Decimal_t [decimal_places 2; default D0];
      mkField "unrealized_gain_loss_percent" Decimal_t
        [decimal_places 4; default D0];
      mkField "created_at" datetime_t [default_factory_utcnow];
      mkField "updated_at" datetime_t [default_factory_utcnow] ]
    [ mkRel "user" (One "User") (Some "holdings");
      mkRel "stock" (One "Stock") (Some "holdings") ].

Definition Transaction : ModelDecl :=
  mkModel "Transaction" true (Some "transactions")
    [ mkField "id" (Optional int_t) [default VNone; primary_key];
      mkField "user_id" int_t [foreign_key "users" "id"; index];
      mkField "stock_id" int_t [foreign_key "stocks" "id"; index];
      mkField "transaction_type" TransactionType_t [];
      mkField "quantity" Decimal_t [decimal_places 6];
      mkField "price" Decimal_t [decimal_places 4];
      mkField "total_amount" Decimal_t [decimal_places 2];
      mkField "fees" Decimal_t [decimal_places 2; default D0];
      mkField "notes" (Optional str_t) [default VNone; max_length 500];
      mkField "transaction_date" datetime_t [default_factory_utcnow];
      mkField "created_at" datetime_t [default_factory_utcnow] ]
    [ mkRel "user" (One "User") (Some "transactions");
      mkRel "stock" (One "Stock") (Some "transactions") ].

Definition PriceAlert : ModelDecl :=
  mkModel "PriceAlert" true (Some "price_alerts")
    [ mkField "id" (Optional int_t) [default VNone; primary_key];
      mkField "user_id" int_t [foreign_key "users" "id"; index];
      mkField "stock_id" int_t [foreign_key "stocks" "id"; index];
      mkField "alert_type" AlertType_t [];
      mkField "target_price" Decimal_t [decimal_places 4];
      mkField "status" AlertStatus_t [default (VAlertStatus ACTIVE)];
      mkField "message" (Optional str_t) [default VNone; max_length 200];
      mkField "triggered_at" (Optional datetime_t) [default VNone];
      mkField "created_at" datetime_t [default_factory_utcnow];
      mkField "updated_at" datetime_t [default_factory_utcnow] ]
    [ mkRel "user" (One "User") (Some "alerts");
      mkRel "stock" (One "Stock") (Some "alerts") ].

Definition StockPriceHistory : ModelDecl :=
  mkModel "StockPriceHistory" true (Some "stock_price_history")
    [ mkField "id" (Optional int_t) [default VNone; primary_key];
      mkField "stock_id" int_t [foreign_key "stocks" "id"; index];
      mkField "price" Decimal_t [decimal_places 4];
      mkField "volume" int_t [default (VInt 0)];
      mkField "timestamp" datetime_t [default_factory_utcnow; index];
      mkField "open_price" (Optional Decimal_t) [default VNone; decimal_places 4];
      mkField "high_price" (Optional Decimal_t) [default VNone; decimal_places 4];
      mkField "low_price" (Optional Decimal_t) [default VNone; decimal_places 4];
      mkField "close_price" (Optional Decimal_t) [default VNone; decimal_places 4] ]
    [ mkRel "stock" (One "Stock") (Some "price_history") ].

Definition PortfolioSummary : ModelDecl :=
  mkModel "PortfolioSummary" true (Some "portfolio_summaries")
    [ mkField "id" (Optional int_t) [default VNone; primary_key];
      mkField "user_id" int_t [foreign_key "users" "id"; unique; index];
      mkField "total_value" Decimal_t [decimal_places 2; default D0];
      mkField "total_invested" Decimal_t [decimal_places 2; default D0];
      mkField "total_gain_loss" Decimal_t [decimal_places 2; default D0];
      mkField "total_gain_loss_percent" Decimal_t [decimal_places 4; default D0];
      mkField "day_change" Decimal_t [decimal_places 2; default D0];
      mkField "day_change_percent" Decimal_t [decimal_places 4; default D0];
      mkField "number_of_holdings" int_t [default (VInt 0)];
      mkField "last_updated" datetime_t [default_factory_utcnow] ]
    [ mkRel "user" (One "User") None ].

(** *** Non-persistent schemas (validation, forms, API requests) *)

Definition UserCreate : ModelDecl :=
  mkModel "UserCreate" false None
    [ mkField "username" str_t [max_length 50];
      mkField "email" str_t [max_length 255];
      mkField "full_name" str_t [max_length 100] ]
    [].

Definition UserUpdate : ModelDecl :=
  mkModel "UserUpdate" false None
    [ mkField "username" (Optional str_t) [default VNone; max_length 50];
      mkField "email" (Optional str_t) [default VNone; max_length 255];
      mkField "full_name" (Optional str_t) [default VNone; max_length 100];
      mkField "is_active" (Optional bool_t) [default VNone] ]
    [].

Definition StockCreate : ModelDecl :=
  mkModel "StockCreate" false None
    [ mkField "symbol" str_t [max_length 10];
      mkField "name" str_t [max_length 200];
      mkField "exchange" str_t [max_length 50];
      mkField "sector" (Optional str_t) [default VNone; max_length 100];
      mkField "current_price" Decimal_t [decimal_places 4] ]
    [].

Definition StockUpdate : ModelDecl :=
  mkModel "StockUpdate" false None
    [ mkField "name" (Optional str_t) [default VNone; max_length 200];
      mkField "exchange" (Optional str_t) [default VNone; max_length 50];
      mkField "sector" (Optional str_t) [default VNone; max_length 100];
      mkField "current_price" (Optional Decimal_t)
        [default VNone; decimal_places 4];
      mkField "previous_close" (Optional Decimal_t)
        [default VNone; decimal_places 4];
      mkField "is_active" (Optional bool_t) [default VNone] ]
    [].

Definition TransactionCreate : ModelDecl :=
  mkModel "TransactionCreate" false None
    [ mkField "stock_id" int_t [];
      mkField "transaction_type" TransactionType_t [];
      mkField "quantity" Decimal_t [decimal_places 6];
      mkField "price" Decimal_t [decimal_places 4];
      mkField "fees" Decimal_t [decimal_places 2; default D0];
      mkField "notes" (Optional str_t) [default VNone; max_length 500];
      mkField "transaction_date" (Optional datetime_t) [default VNone] ]
    [].

Definition PriceAlertCreate : ModelDecl :=
  mkModel "PriceAlertCreate" false None
    [ mkField "stock_id" int_t [];
      mkField "alert_type" AlertType_t [];
      mkField "target_price" Decimal_t [decimal_places 4];
      mkField "message" (Optional str_t) [default VNone; max_length 200] ]
    [].

Definition PriceAlertUpdate : ModelDecl :=
  mkModel "PriceAlertUpdate" false None
    [ mkField "alert_type" (Optional AlertType_t) [default VNone];
      mkField "target_price" (Optional Decimal_t)
        [default VNone; decimal_places 4];
      mkField "status" (Optional AlertStatus_t) [default VNone];
      mkField "message" (Optional str_t) [default VNone; max_length 200] ]
    [].

Definition StockPriceUpdate : ModelDecl :=
  mkModel "StockPriceUpdate" false None
    [ mkField "price" Decimal_t [decimal_places 4];
      mkField "volume" int_t [default (VInt 0)];
      mkField "open_price" (Optional Decimal_t) [default VNone; decimal_places 4];
      mkField "high_price" (Optional Decimal_t) [default VNone; decimal_places 4];
      mkField "low_price" (Optional Decimal_t) [default VNone; decimal_places 4];
      mkField "close_price" (Optional Decimal_t) [default VNone; decimal_places 4] ]
    [].

(** *** Response schemas for API endpoints *)

Definition PortfolioHoldingResponse : ModelDecl :=
  mkModel "PortfolioHoldingResponse" false None
    [ mkField "id" int_t [];
      mkField "stock_symbol" str_t [];
      mkField "stock_name" str_t [];
      mkField "quantity" Decimal_t [];
      mkField "average_cost" Decimal_t [];
      mkField "current_price" Decimal_t [];
      mkField "current_value" Decimal_t [];
      mkField "unrealized_gain_loss" Decimal_t [];
      mkField "unrealized_gain_loss_percent" Decimal_t [];
      mkField "day_change" Decimal_t [];
      mkField "day_change_percent" Decimal_t [] ]
    [].

Definition PortfolioSummaryResponse : ModelDecl :=
  mkModel "PortfolioSummaryResponse" false None
    [ mkField "total_value" Decimal_t [];
      mkField "total_invested" Decimal_t [];
      mkField "total_gain_loss" Decimal_t [];
      mkField "total_gain_loss_percent" Decimal_t [];
      mkField "day_change" Decimal_t [];
      mkField "day_change_percent" Decimal_t [];
      mkField "number_of_holdings" int_t [];
      mkField "holdings" (List_of "PortfolioHoldingResponse") [] ]
    [].

Definition StockSearchResponse : ModelDecl :=
  mkModel "StockSearchResponse" false None
    [ mkField "symbol" str_t [];
      mkField "name" str_t [];
      mkField "exchange" str_t [];
      mkField "current_price" Decimal_t [];
      mkField "day_change" Decimal_t [];
      mkField "day_change_percent" Decimal_t [] ]
    [].

(** The module, in source order. *)
Definition table_models : list ModelDecl :=
  [ User; Stock; PortfolioHolding; Transaction; PriceAlert;
    StockPriceHistory; PortfolioSummary ].

Definition request_shapes : list ModelDecl :=
  [ UserCreate; UserUpdate; StockCreate; StockUpdate; TransactionCreate;
    PriceAlertCreate; PriceAlertUpdate; StockPriceUpdate ].

Definition response_shapes : list ModelDecl :=
  [ PortfolioHoldingResponse; PortfolioSummaryResponse; StockSearchResponse ].

Definition api_shapes : list ModelDecl := request_shapes ++ response_shapes.

Definition all_models : list ModelDecl := table_models ++ api_shapes.

(** ** Validation of a payload against a model *)

(** The two major versions of pydantic differ on one option of the
    module: version 1 checks [regex=]; under version 2 SQLModel drops
    it. *)
Inductive Pydantic := pydantic_1 | pydantic_2.

(** [datetime.utcnow] is called once for each field that takes its
    default from it: the clock gives the reading for each field. *)
Definition Clock := string -> Z.

Inductive ValidationError :=
| field_required (field : string)
| none_not_allowed (field : string)
| type_error (field : string)
| max_length_exceeded (field : string)
| decimal_places_exceeded (field : string)
| regex_mismatch (field : string).

Inductive Result (A : Type) :=
| Ok (a : A)
| Err (e : ValidationError).
Arguments Ok {A} a.
Arguments Err {A} e.

Definition Row := list (string * Value).

Fixpoint lookup (kw : Row) (n : string) : option Value :=
  match kw with
  | [] => None
  | (k, v) :: kw' => if k =? n then Some v else lookup kw' n
  end.

(** *** Strings *)

(** A string is held as its UTF-8 bytes; its length in Python is the
    number of code points, that is of bytes that do not continue a
    character. *)
Definition is_continuation (c : ascii) : bool :=
  (128 <=? nat_of_ascii c)%nat && (nat_of_ascii c <=? 191)%nat.

Fixpoint py_len (s : string) : nat :=
  match s with
  | EmptyString => O
  | String c s' => if is_continuation c then py_len s' else S (py_len s')
  end.

Definition digit_of (c : ascii) : option Z :=
  if (48 <=? nat_of_ascii c)%nat && (nat_of_ascii c <=? 57)%nat
  then Some (Z.of_nat (nat_of_ascii c - 48))
  else None.

Fixpoint parse_digits (s : string) (acc : Z) : option Z :=
  match s with
  | EmptyString => Some acc
  | String c s' =>
      match digit_of c with
      | Some d => parse_digits s' (10 * acc + d)
      | None => None
      end
  end.

(** One or more decimal digits. *)
Definition parse_nat (s : string) : option Z :=
  match s with
  | EmptyString => None
  | _ => parse_digits s 0
  end.

(** [int("-12")]: an optional minus sign and digits. *)
Definition parse_int (s : string) : option Z :=
  match s with
  | String "-"%char s' => option_map Z.opp (parse_nat s')
  | _ => parse_nat s
  end.

Fixpoint split_at_dot (s : string) : string * option string :=
  match s with
  | EmptyString => (EmptyString, None)
  | String c s' =>
      if Ascii.eqb c "."%char then (EmptyString, Some s')
      else let (a, b) := split_at_dot s' in (String c a, b)
  end.

Definition parse_unsigned_decimal (s : string) : option Decimal :=
  match split_at_dot s with
  | (whole, None) => option_map (fun z => mkDecimal z 0) (parse_nat whole)
  | (whole, Some frac) =>
      match parse_nat whole, parse_nat frac with
      | Some _, Some _ =>
          option_map (fun z => mkDecimal z (- Z.of_nat (String.length frac)))
                     (parse_digits (whole ++ frac) 0)
      | _, _ => None
      end
  end.

(** [Decimal("-101.250")]: an optional minus sign, digits, and
    optionally a point and digits; the digits after the point are kept
    as written. *)
Definition parse_decimal (s : string) : option Decimal :=
  match s with
  | String "-"%char s' =>
      option_map (fun d => mkDecimal (- coef d) (dexp d))
                 (parse_unsigned_decimal s')
  | _ => parse_unsigned_decimal s
  end.

(** *** Datetimes *)

(** A datetime is the count of microseconds from 1970-01-01T00:00:00 on
    the naive UTC clock of [datetime.utcnow]. *)
Definition is_leap (y : Z) : bool :=
  ((y mod 4 =? 0) && negb (y mod 100 =? 0) || (y mod 400 =? 0))%Z.

Definition days_in_month (y m : Z) : Z :=
  if (m =? 2)%Z then (if is_leap y then 29 else 28)%Z
  else if ((m =? 4) || (m =? 6) || (m =? 9) || (m =? 11))%Z then 30%Z
  else 31%Z.

Definition days_from_civil (y m d : Z) : Z :=
  let y' := if (m <=? 2)%Z then (y - 1)%Z else y in
  let era := (y' / 400)%Z in
  let yoe := (y' - era * 400)%Z in
  let mp := ((m + 9) mod 12)%Z in
  let doy := ((153 * mp + 2) / 5 + d - 1)%Z in
  let doe := (yoe * 365 + yoe / 4 - yoe / 100 + doy)%Z in
  (era * 146097 + doe - 719468)%Z.

Definition char_at (i : nat) (s : string) (c : ascii) : bool :=
  match String.get i s with
  | Some c' => Ascii.eqb c' c
  | None => false
  end.

(** The ISO form [YYYY-MM-DDTHH:MM:SS], with a real calendar date. *)
Definition parse_datetime (s : string) : option Z :=
  if (String.length s =? 19)%nat
     && char_at 4 s "-"%char && char_at 7 s "-"%char && char_at 10 s "T"%char
     && char_at 13 s ":"%char && char_at 16 s ":"%char
  then
    match parse_nat (substring 0 4 s), parse_nat (substring 5 2 s),
          parse_nat (substring 8 2 s), parse_nat (substring 11 2 s),
          parse_nat (substring 14 2 s), parse_nat (substring 17 2 s) with
    | Some y, Some mo, Some d, Some h, Some mi, Some se =>
        if ((1 <=? y) && (1 <=? mo) && (mo <=? 12)
            && (1 <=? d) && (d <=? days_in_month y mo)
            && (h <=? 23) && (mi <=? 59) && (se <=? 59))%Z
        then Some (((days_from_civil y mo d * 86400
                     + h * 3600 + mi * 60 + se) * 1000000)%Z)
        else None
    | _, _, _, _, _, _ => None
    end
  else None.

(** *** Conversion and constraints *)

Fixpoint traverse {A B : Type} (g : A -> option B) (l : list A)
  : option (list B) :=
  match l with
  | [] => Some []
  | x :: l' =>
      match g x, traverse g l' with
      | Some y, Some ys => Some (y :: ys)
      | _, _ => None
      end
  end.

Definition regex_checked (lib : Pydantic) (f : FieldDecl) : option Re.Regex :=
  match lib with
  | pydantic_1 => f_regex f
  | pydantic_2 => None
  end.

Section Validation.

(** [elem n kw] validates a payload as an object of the model named [n],
    for the elements of a [List[n]] field. *)
Variable elem : string -> Row -> option Row.
Variable lib : Pydantic.
Variable now : Clock.

Definition coerce_element (n : string) (v : Value) : option Value :=
  match v with
  | VDict kw => option_map VDict (elem n kw)
  | _ => None
  end.

(** Conversion of a supplied value to the annotated type: the value
    itself when it is of that type, an [int] or a numeric string for a
    [Decimal], a numeric string for an [int], an ISO string for a
    [datetime], the string value of a member for a [str]-based
    enumeration, and a list whose elements validate as the named model.
    Other lenient conversions of the library are left out. *)
Fixpoint coerce_with (t : PyType) (v : Value) : option Value :=
  match t, v with
  | Optional _, VNone => Some VNone
  | Optional t', _ => coerce_with t' v
  | int_t, VInt _ => Some v
  | int_t, VStr s => option_map VInt (parse_int s)
  | str_t, VStr _ => Some v
  | bool_t, VBool _ => Some v
  | Decimal_t, VDecimal _ => Some v
  | Decimal_t, VInt z => Some (VDecimal (mkDecimal z 0))
  | Decimal_t, VStr s => option_map VDecimal (parse_decimal s)
  | datetime_t, VDatetime _ => Some v
  | datetime_t, VStr s => option_map VDatetime (parse_datetime s)
  | TransactionType_t, VTransactionType _ => Some v
  | TransactionType_t, VStr s =>
      option_map VTransactionType (TransactionTypeEnum.of_value s)
  | AlertType_t, VAlertType _ => Some v
  | AlertType_t, VStr s => option_map VAlertType (AlertTypeEnum.of_value s)
  | AlertStatus_t, VAlertStatus _ => Some v
  | AlertStatus_t, VStr s => option_map VAlertStatus (AlertStatusEnum.of_value s)
  | Dict_str_Any, VDict _ => Some v
  | List_of n, VList xs => option_map VList (traverse (coerce_element n) xs)
  | _, _ => None
  end.

(** The constraints of [Field(...)] on a converted value; [None] passes.
    [max_length] bounds the number of code points; [regex] is matched
    under pydantic 1 only; [decimal_places] bounds the places of the
    normalized value, so trailing zeros do not count. *)
Definition check_constraints (f : FieldDecl) (v : Value) : Result Value :=
  match v with
  | VStr s =>
      if match f_max_length f with
         | Some n => (py_len s <=? n)%nat
         | None => true
         end
      then
        if match regex_checked lib f with
           | Some r => Re.anchored_match r s
           | None => true
           end
        then Ok v
        else Err (regex_mismatch (fname f))
      else Err (max_length_exceeded (fname f))
  | VDecimal d =>
      if match f_decimal_places f with
         | Some p => (normalized_places d <=? p)%nat
         | None => true
         end
      then Ok v
      else Err (decimal_places_exceeded (fname f))
  | _ => Ok v
  end.

Definition validate_field_with (f : FieldDecl) (kw : Row) : Result Value :=
  match lookup kw (fname f) with
  | Some v =>
      match coerce_with (annotation f) v with
      | Some v' => check_constraints f v'
      | None =>
          match v with
          | VNone => Err (none_not_allowed (fname f))
          | _ => Err (type_error (fname f))
          end
      end
  | None =>
      match f_default f with
      | DefaultValue d => Ok d
      | DefaultUtcnow => Ok (VDatetime (now (fname f)))
      | NoDefault => Err (field_required (fname f))
      end
  end.

Fixpoint validate_fields_with (fs : list FieldDecl) (kw : Row) : Result Row :=
  match fs with
  | [] => Ok []
  | f :: fs' =>
      match validate_field_with f kw with
      | Ok v =>
          match validate_fields_with fs' kw with
          | Ok row => Ok ((fname f, v) :: row)
          | Err e => Err e
          end
      | Err e => Err e
      end
  end.

End Validation.

(** A model whose fields hold no list of objects needs no element
    validator. *)
Definition no_elements : string -> Row -> option Row := fun _ _ => None.

Definition find_model (n : string) : option ModelDecl :=
  find (fun m => mname m =? n) all_models.

(** The elements of [List[PortfolioHoldingResponse]]: each is validated
    as the named model, itself without lists of objects. *)
Definition validate_element (lib : Pydantic) (now : Clock)
  (n : string) (kw : Row) : option Row :=
  match find_model n with
  | Some m =>
      match validate_fields_with no_elements lib now (fields m) kw with
      | Ok row => Some row
      | Err _ => None
      end
  | None => None
  end.

Definition coerce (lib : Pydantic) (now : Clock) (t : PyType) (v : Value)
  : option Value :=
  coerce_with (validate_element lib now) t v.

Definition validate_field (lib : Pydantic) (now : Clock) (f : FieldDecl)
  (kw : Row) : Result Value :=
  validate_field_with (validate_element lib now) lib now f kw.

Definition validate_fields (lib : Pydantic) (now : Clock)
  (fs : list FieldDecl) (kw : Row) : Result Row :=
  validate_fields_with (validate_element lib now) lib now fs kw.

(** [Model.validate(kw)] under library version [lib] with clock [now]:
    every declared field, in declaration order; keys that the model does
    not declare are ignored. *)
Definition validate (lib : Pydantic) (m : ModelDecl) (now : Clock) (kw : Row)
  : Result Row :=
  validate_fields lib now (fields m) kw.

(** ** Database states *)

(** A database state gives the rows of each table, by [__tablename__]. *)
Definition DB := list (string * list Row).

Fixpoint rows_of (db : DB) (t : string) : list Row :=
  match db with
  | [] => []
  | (t', rows) :: db' => if t' =? t then rows else rows_of db' t
  end.

Definition cell (r : Row) (n : string) : Value :=
  match lookup r n with Some v => v | None => VNone end.

Definition column (n : string) (rows : list Row) : list Value :=
  map (fun r => cell r n) rows.

Definition is_null (v : Value) : bool :=
  match v with VNone => true | _ => false end.

(** A value of the annotated type; [None] only under [Optional]. *)
Fixpoint has_type (t : PyType) (v : Value) : bool :=
  match t, v with
  | Optional _, VNone => true
  | Optional t', _ => has_type t' v
  | int_t, VInt _ => true
  | str_t, VStr _ => true
  | bool_t, VBool _ => true
  | Decimal_t, VDecimal _ => true
  | datetime_t, VDatetime _ => true
  | TransactionType_t, VTransactionType _ => true
  | AlertType_t, VAlertType _ => true
  | AlertStatus_t, VAlertStatus _ => true
  | Dict_str_Any, VDict _ => true
  | List_of _, VList _ => true
  | _, _ => false
  end.

(** What the declared constraints check of a stored cell.  The primary
    key is an integer, never NULL; any other column is NOT NULL unless
    its annotation is [Optional].  The value of such a column is not
    checked against its annotation: the table models are built without
    validation, and the column of a [str]-based enumeration takes any
    string. *)
Definition stored_ok (f : FieldDecl) (v : Value) : bool :=
  if f_primary_key f
  then has_type (annotation f) v && negb (is_null v)
  else negb (is_null v) || is_optional (annotation f).

Definition row_conforms (m : ModelDecl) (r : Row) : bool :=
  forallb (fun f => match lookup r (fname f) with
                    | Some v => stored_ok f v
                    | None => false
                    end) (fields m).

Fixpoint distinctb (vs : list Value) : bool :=
  match vs with
  | [] => true
  | v :: vs' => negb (existsb (Value_eqb v) vs') && distinctb vs'
  end.

(** UNIQUE and PRIMARY KEY: no two rows share a non-NULL value. *)
Definition unique_ok (f : FieldDecl) (rows : list Row) : bool :=
  if f_unique f || f_primary_key f
  then distinctb (filter (fun v => negb (is_null v)) (column (fname f) rows))
  else true.

(** FOREIGN KEY: a non-NULL value occurs in the referenced column. *)
Definition foreign_key_ok (db : DB) (f : FieldDecl) (rows : list Row) : bool :=
  match f_foreign_key f with
  | Some (t, c) =>
      forallb (fun v => is_null v || existsb (Value_eqb v) (column c (rows_of db t)))
              (column (fname f) rows)
  | None => true
  end.

Definition valid_table (db : DB) (m : ModelDecl) : bool :=
  match tablename m with
  | Some t =>
      let rows := rows_of db t in
      forallb (row_conforms m) rows
      && forallb (fun f => unique_ok f rows && foreign_key_ok db f rows) (fields m)
  | None => true
  end.

Definition valid_db (db : DB) : bool := forallb (valid_table db) table_models.

(** Rows of a table whose column [n] holds [v]. *)
Definition rows_with (n : string) (v : Value) (rows : list Row) : list Row :=
  filter (fun r => Value_eqb (cell r n) v) rows.

Definition sample_db : DB :=
  [ ("users",
     [ [("id", VInt 1); ("username", VStr "alice");
        ("email", VStr "alice@example.com"); ("full_name", VStr "Alice A");
        ("is_active", VBool true); ("created_at", VDatetime 100);
        ("updated_at", VDatetime 100)];
       [("id", VInt 2); ("username", VStr "bob");
        ("email", VStr "bob@example.com"); ("full_name", VStr "Bob B");
        ("is_active", VBool true); ("created_at", VDatetime 101);
        ("updated_at", VDatetime 101)] ]);
    ("stocks",
     [ [("id", VInt 1); ("symbol", VStr "ACME"); ("name", VStr "Acme Corp");
        ("exchange", VStr "NYSE"); ("sector", VNone); ("market_cap", VNone);
        ("current_price", VDecimal (mkDecimal 1012500 (-4)));
        ("previous_close", VDecimal (mkDecimal 1000000 (-4)));
        ("day_change", VDecimal (mkDecimal 12500 (-4)));
        ("day_change_percent", VDecimal (mkDecimal 12500 (-4)));
        ("volume", VInt 0); ("last_updated", VDatetime 100);
        ("is_active", VBool true); ("created_at", VDatetime 100);
        ("market_data", VDict [])] ]);
    ("transactions",
     [ [("id", VInt 1); ("user_id", VInt 1); ("stock_id", VInt 1);
        ("transaction_type", VTransactionType BUY);
        ("quantity", VDecimal (mkDecimal 2500000 (-6)));
        ("price", VDecimal (mkDecimal 1000000 (-4)));
        ("total_amount", VDecimal (mkDecimal 25000 (-2)));
        ("fees", D0); ("notes", VNone);
        ("transaction_date", VDatetime 100); ("created_at", VDatetime 100)] ]);
    ("price_alerts",
     [ [("id", VInt 1); ("user_id", VInt 1); ("stock_id", VInt 1);
        ("alert_type", VAlertType ABOVE);
        ("target_price", VDecimal (mkDecimal 1100000 (-4)));
        ("status", VAlertStatus TRIGGERED); ("message", VNone);
        ("triggered_at", VDatetime 150);
        ("created_at", VDatetime 100); ("updated_at", VDatetime 150)] ]);
    ("portfolio_summaries",
     [ [("id", VInt 1); ("user_id", VInt 1);
        ("total_value", D0); ("total_invested", D0); ("total_gain_loss", D0);
        ("total_gain_loss_percent", D0); ("day_change", D0);
        ("day_change_percent", D0); ("number_of_holdings", VInt 0);
        ("last_updated", VDatetime 100)] ]) ].

(** ** Shapes and the entities they stand for *)

Definition internal_fields : list string :=
  ["id"; "created_at"; "updated_at"; "last_updated"].

(** Each API shape with the table model it is read against.  The module
    pairs them by name only; [StockPriceUpdate] is read against
    [StockPriceHistory], whose price, volume and OHLC columns it repeats. *)
Definition corresponding_entity : list (ModelDecl * ModelDecl) :=
  [ (UserCreate, User); (UserUpdate, User);
    (StockCreate, Stock); (StockUpdate, Stock);
    (TransactionCreate, Transaction);
    (PriceAlertCreate, PriceAlert); (PriceAlertUpdate, PriceAlert);
    (StockPriceUpdate, StockPriceHistory);
    (PortfolioHoldingResponse, PortfolioHolding);
    (PortfolioSummaryResponse, PortfolioSummary);
    (StockSearchResponse, Stock) ].

(** Fields of shape [s] that entity [e] does not declare. *)
Definition extra_fields (s e : ModelDecl) : list string :=
  filter (fun n => negb (has_field e n)) (field_names s).

(** Internal fields that shape [s] declares. *)
Definition exposed_internal (s : ModelDecl) : list string :=
  filter (has_field s) internal_fields.

Definition starts_with (pre s : string) : bool :=
  String.prefix pre s.

Definition ends_with (suf s : string) : bool :=
  substring (String.length s - String.length suf) (String.length suf) s =? suf.

Inductive ShapeKind := CreateShape | UpdateShape | ResponseShape | TableModel.

(** The module names its shapes [<Entity>Create], [<Entity>Update] and
    [<...>Response]. *)
Definition shape_kind (m : ModelDecl) : ShapeKind :=
  if table m then TableModel
  else if ends_with "Create" (mname m) then CreateShape
  else if ends_with "Update" (mname m) then UpdateShape
  else ResponseShape.

Definition is_update (m : ModelDecl) : bool :=
  match shape_kind m with UpdateShape => true | _ => false end.

Definition is_response (m : ModelDecl) : bool :=
  match shape_kind m with ResponseShape => true | _ => false end.

(** The shapes read against entity [e]. *)
Definition shapes_for (e : ModelDecl) : list ModelDecl :=
  map fst (filter (fun p => mname (snd p) =? mname e) corresponding_entity).

(** ** Monetary and quantity fields *)








(** ** Status requests *)

(** The status that a [PriceAlertUpdate] payload asks for.  Validation
    reads the payload alone: the shape has no field for the alert's
    current status. *)
Definition requested_status (lib : Pydantic) (now : Clock) (kw : Row)
  : option AlertStatus :=
  match validate lib PriceAlertUpdate now kw with
  | Ok row =>
      match lookup row "status" with
      | Some (VAlertStatus s) => Some s
      | _ => None
      end
  | Err _ => None
  end.

(** The shape lets an alert in status [current] be asked into [target]. *)
Definition shape_permits (current target : AlertStatus) : Prop :=
  exists lib now kw, requested_status lib now kw = Some target.

(** ** Well-formedness of the declarations *)

Fixpoint distinct_names (ns : list string) : bool :=
  match ns with
  | [] => true
  | n :: ns' => negb (existsb (String.eqb n) ns') && distinct_names ns'
  end.

(** [sample_db] with an alert whose status names no member of
    [AlertStatus] and a transaction whose type names none of
    [TransactionType]. *)
Definition unchecked_enum_db : DB :=
  ("price_alerts",
   [ [("id", VInt 1); ("user_id", VInt 1); ("stock_id", VInt 1);
      ("alert_type", VAlertType ABOVE);
      ("target_price", VDecimal (mkDecimal 1100000 (-4)));
      ("status", VStr "BOGUS"); ("message", VNone);
      ("triggered_at", VNone);
      ("created_at", VDatetime 100); ("updated_at", VDatetime 100)] ])
  :: ("transactions",
      [ [("id", VInt 1); ("user_id", VInt 1); ("stock_id", VInt 1);
         ("transaction_type", VStr "HOLD");
         ("quantity", VDecimal (mkDecimal 2500000 (-6)));
         ("price", VDecimal (mkDecimal 1000000 (-4)));
         ("total_amount", VDecimal (mkDecimal 25000 (-2)));
         ("fees", D0); ("notes", VNone);
         ("transaction_date", VDatetime 100); ("created_at", VDatetime 100)] ])
  :: sample_db.

(** [sample_db] with a second summary row for user 1. *)
Definition duplicate_summary_db : DB :=
  ("portfolio_summaries",
   [ [("id", VInt 1); ("user_id", VInt 1);
      ("total_value", D0); ("total_invested", D0); ("total_gain_loss", D0);
      ("total_gain_loss_percent", D0); ("day_change", D0);
      ("day_change_percent", D0); ("number_of_holdings", VInt 0);
      ("last_updated", VDatetime 100)];
     [("id", VInt 2); ("user_id", VInt 1);
      ("total_value", D0); ("total_invested", D0); ("total_gain_loss", D0);
      ("total_gain_loss_percent", D0); ("day_change", D0);
      ("day_change_percent", D0); ("number_of_holdings", VInt 0);
      ("last_updated", VDatetime 100)] ])
  :: sample_db.

(** ** Sample payloads *)

Definition malformed_email : string := "not-an-email".

Definition user_payload (email : string) : Row :=
  [("username", VStr "alice"); ("email", VStr email);
   ("full_name", VStr "Alice A")].

(** A clock for the examples: each field gets its own reading. *)
Definition sample_clock : Clock :=
  fun n => if n =? "updated_at" then 101%Z else 100%Z.

(** Unfolds a validation on a payload of known keys, leaving the checks
    on its symbolic values in place. *)
Ltac run_validate :=
  unfold validate, validate_fields;
  cbv - [normalized_places py_len Nat.leb validate_element
         Re.anchored_match email_regex].

(** ** Relationships and foreign keys *)

Definition rel_model (r : RelDecl) : string :=
  match rtarget r with One m => m | Many m => m end.

Definition rel_many (r : RelDecl) : bool :=
  match rtarget r with Many _ => true | One _ => false end.

Definition find_table (t : string) : option ModelDecl :=
  find (fun m => match tablename m with
                 | Some t' => t' =? t
                 | None => false
                 end) all_models.

(** [back_populates=b] on relationship [r] of model [m]: the target
    model has a relationship [b] that points back at [m], names [r] in
    its own [back_populates], and is the other side of a one-to-many
    pair. *)
Definition back_reference_ok (m : ModelDecl) (r : RelDecl) : bool :=
  match back_populates r with
  | None => true
  | Some b =>
      match find_model (rel_model r) with
      | Some tm =>
          match find (fun r' => rname r' =? b) (relationships tm) with
          | Some r' =>
              (rel_model r' =? mname m)
              && match back_populates r' with
                 | Some b' => b' =? rname r
                 | None => false
                 end
              && xorb (rel_many r) (rel_many r')
          | None => false
          end
      | None => false
      end
  end.

(** A scalar relationship [x: T] rests on a column [x_id] whose foreign
    key is the [id] of [T]'s table. *)
Definition relationship_fk_ok (m : ModelDecl) (r : RelDecl) : bool :=
  match rtarget r with
  | Many _ => true
  | One tn =>
      match find_model tn, find_field m (rname r ++ "_id") with
      | Some tm, Some f =>
          match f_foreign_key f, tablename tm with
          | Some (t, c), Some t' => (t =? t') && (c =? "id")
          | _, _ => false
          end
      | _, _ => false
      end
  end.

(** [foreign_key="t.c"] names the primary key [c] of a table [t] of the
    module, of the column's own type, and the column is not [Optional]. *)
Definition foreign_key_resolves (f : FieldDecl) : bool :=
  match f_foreign_key f with
  | None => true
  | Some (t, c) =>
      match find_table t with
      | Some tm =>
          match find_field tm c with
          | Some g =>
              f_primary_key g
              && PyType_eqb_simple (base_type (annotation g))
                                   (base_type (annotation f))
              && negb (is_optional (annotation f))
          | None => false
          end
      | None => false
      end
  end.

(** ** Defaults against their own declaration *)

Definition is_list (v : Value) : bool :=
  match v with VList _ => true | _ => false end.

(** A default is taken as it is; this checks that it would pass the
    field's own annotation and constraints, under both versions. *)
Definition default_revalidates (f : FieldDecl) : bool :=
  match f_default f with
  | NoDefault => true
  | DefaultValue d =>
      has_type (annotation f) d && negb (is_list d)
      && match check_constraints pydantic_1 f d with
         | Ok _ => true
         | Err _ => false
         end
      && match check_constraints pydantic_2 f d with
         | Ok _ => true
         | Err _ => false
         end
  | DefaultUtcnow => has_type (annotation f) (VDatetime 0)
  end.

(** The shapes whose every field is [Optional] with default [None]. *)
Definition patch_shapes : list ModelDecl :=
  [UserUpdate; StockUpdate; PriceAlertUpdate].

(** ** The language of a pattern *)




(** * Properties *)

(** ** The email pattern *)

Example email_accepts_plain :
  Re.anchored_match email_regex "alice@example.com" = true.
Proof. vm_compute. reflexivity. Qed.

Example email_accepts_tagged :
  Re.anchored_match email_regex "a.b+tag@mail-host.co.uk" = true.
Proof. vm_compute. reflexivity. Qed.

Example email_rejects_no_at :
  Re.anchored_match email_regex malformed_email = false.
Proof. vm_compute. reflexivity. Qed.

Example email_rejects_no_dot :
  Re.anchored_match email_regex "alice@localhost" = false.
Proof. vm_compute. reflexivity. Qed.

Example email_rejects_empty : Re.anchored_match email_regex "" = false.
Proof. vm_compute. reflexivity. Qed.

(** ** Values and lookups *)

Lemma Value_eqb_refl : forall v, Value_eqb v v = true.
Proof.
  fix IH 1. intros [ | z | s | b | d | t | t | t | t | kvs | xs ]; simpl;
    try reflexivity.
  - apply Z.eqb_refl.
  - apply String.eqb_refl.
  - apply Bool.eqb_reflx.
  - now rewrite !Z.eqb_refl.
  - apply Z.eqb_refl.
  - apply String.eqb_refl.
  - apply String.eqb_refl.
  - apply String.eqb_refl.
  - induction kvs as [ | [k v] kvs IHk ]; [ reflexivity | ].
    now rewrite String.eqb_refl, IH, IHk.
  - induction xs as [ | v xs IHx ]; [ reflexivity | ].
    now rewrite IH, IHx.
Qed.

Lemma Value_eqb_VInt v z : Value_eqb v (VInt z) = true -> v = VInt z.
Proof.
  destruct v; simpl; try discriminate.
  intros H. apply Z.eqb_eq in H. now subst.
Qed.

Lemma existsb_Value_eqb_In v vs : In v vs -> existsb (Value_eqb v) vs = true.
Proof.
  intros H. apply existsb_exists. exists v. split; [ exact H | ].
  apply Value_eqb_refl.
Qed.

Lemma distinctb_NoDup vs : distinctb vs = true -> NoDup vs.
Proof.
  induction vs as [ | v vs IH ]; simpl; intros H; [ constructor | ].
  apply andb_true_iff in H. destruct H as [Hv Hvs].
  constructor; [ | now apply IH ].
  intros Hin. apply existsb_Value_eqb_In in Hin.
  rewrite Hin in Hv. discriminate.
Qed.

Lemma has_type_not_null t v :
  is_optional t = false -> has_type t v = true -> is_null v = false.
Proof. destruct t, v; simpl; congruence. Qed.

Lemma has_type_None t : has_type t VNone = true -> is_optional t = true.
Proof. destruct t; simpl; congruence. Qed.

Lemma drop_trailing_zeros_le n : forall c, (drop_trailing_zeros n c <= n)%nat.
Proof.
  induction n as [ | n IH ]; intros c; simpl; [ lia | ].
  destruct (c mod 10 =? 0)%Z; [ | lia ].
  specialize (IH (c / 10)%Z). lia.
Qed.

Lemma normalized_places_le d : (normalized_places d <= decimals d)%nat.
Proof.
  unfold normalized_places. destruct (coef d =? 0)%Z; [ lia | ].
  apply drop_trailing_zeros_le.
Qed.

(** A value whose written places are within the bound passes the
    check. *)
Lemma normalized_places_leb d p :
  (decimals d <= p)%nat -> (normalized_places d <=? p)%nat = true.
Proof.
  intros H. apply Nat.leb_le.
  pose proof (normalized_places_le d). lia.
Qed.

Example trailing_zeros_places :
  decimals (mkDecimal 10125000 (-5)) = 5%nat
  /\ normalized_places (mkDecimal 10125000 (-5)) = 2%nat.
Proof. split; reflexivity. Qed.

Example code_points_not_bytes :
  py_len "éééééé" = 6%nat /\ String.length "éééééé" = 12%nat.
Proof. split; reflexivity. Qed.

(** ** Tables *)

Lemma stored_ok_not_null f v :
  stored_ok f v = true ->
  is_optional (annotation f) = false \/ f_primary_key f = true ->
  is_null v = false.
Proof.
  unfold stored_ok. intros H Hc.
  destruct (f_primary_key f).
  - apply andb_true_iff in H. destruct H as [_ H]. now apply negb_true_iff in H.
  - destruct Hc as [Ho | Hp]; [ | discriminate ].
    rewrite Ho, orb_false_r in H. now apply negb_true_iff in H.
Qed.

Section Tables.

Variable db : DB.
Variable m : ModelDecl.
Variable t : string.
Hypothesis Htable : tablename m = Some t.
Hypothesis Hvalid : valid_table db m = true.

Lemma valid_table_rows :
  forall r, In r (rows_of db t) -> row_conforms m r = true.
Proof.
  unfold valid_table in Hvalid. rewrite Htable in Hvalid.
  apply andb_true_iff in Hvalid. destruct Hvalid as [Hrows _].
  intros r Hr. rewrite forallb_forall in Hrows. now apply Hrows.
Qed.

Lemma valid_table_stored f r :
  In f (fields m) -> In r (rows_of db t) ->
  stored_ok f (cell r (fname f)) = true.
Proof.
  intros Hf Hr. pose proof (valid_table_rows r Hr) as Hc.
  unfold row_conforms in Hc. rewrite forallb_forall in Hc.
  specialize (Hc f Hf). unfold cell.
  now destruct (lookup r (fname f)) as [v | ]; [ | discriminate ].
Qed.

Lemma valid_table_not_null f r :
  In f (fields m) -> In r (rows_of db t) ->
  is_optional (annotation f) = false \/ f_primary_key f = true ->
  is_null (cell r (fname f)) = false.
Proof.
  intros Hf Hr Hc.
  apply (stored_ok_not_null f); [ now apply valid_table_stored | exact Hc ].
Qed.

(** A UNIQUE or PRIMARY KEY column that cannot hold NULL holds pairwise
    different values. *)
Lemma key_column_NoDup f :
  In f (fields m) ->
  f_unique f || f_primary_key f = true ->
  is_optional (annotation f) = false \/ f_primary_key f = true ->
  NoDup (column (fname f) (rows_of db t)).
Proof.
  intros Hf Hu Hnn.
  assert (Hfilter :
    filter (fun v => negb (is_null v)) (column (fname f) (rows_of db t))
    = column (fname f) (rows_of db t)).
  { unfold column.
    pose proof (fun r Hr => valid_table_not_null f r Hf Hr Hnn) as Hcells.
    induction (rows_of db t) as [ | r rows IH ]; [ reflexivity | ].
    simpl. rewrite (Hcells r (or_introl eq_refl)).
    simpl. f_equal. apply IH. intros r' Hr'. apply Hcells. now right. }
  unfold valid_table in Hvalid. rewrite Htable in Hvalid.
  apply andb_true_iff in Hvalid. destruct Hvalid as [_ Hcols].
  rewrite forallb_forall in Hcols. specialize (Hcols f Hf).
  apply andb_true_iff in Hcols. destruct Hcols as [Hcol _].
  unfold unique_ok in Hcol. rewrite Hu, Hfilter in Hcol.
  now apply distinctb_NoDup.
Qed.

Lemma unique_column_NoDup f :
  In f (fields m) ->
  f_unique f || f_primary_key f = true ->
  is_optional (annotation f) = false ->
  NoDup (column (fname f) (rows_of db t)).
Proof. intros Hf Hu Ho. apply key_column_NoDup; auto. Qed.

End Tables.

Lemma valid_db_table db m :
  valid_db db = true -> In m table_models -> valid_table db m = true.
Proof.
  unfold valid_db. rewrite forallb_forall. intros H Hm. now apply H.
Qed.

Lemma rows_with_at_most_one n z rows :
  NoDup (column n rows) -> (length (rows_with n (VInt z) rows) <= 1)%nat.
Proof.
  unfold rows_with, column.
  induction rows as [ | r rows IH ]; simpl; intros Hnd; [ lia | ].
  inversion Hnd as [ | x xs Hnotin Hnd' ]; subst.
  destruct (Value_eqb (cell r n) (VInt z)) eqn:Hr; [ | now apply IH ].
  apply Value_eqb_VInt in Hr. simpl.
  assert (Hnone : filter (fun r0 => Value_eqb (cell r0 n) (VInt z)) rows = []).
  { destruct (filter _ rows) as [ | r' rs ] eqn:Hf; [ reflexivity | ].
    exfalso. apply Hnotin.
    assert (Hin : In r' (filter (fun r0 => Value_eqb (cell r0 n) (VInt z)) rows))
      by (rewrite Hf; now left).
    apply filter_In in Hin. destruct Hin as [Hin Heq].
    apply Value_eqb_VInt in Heq. rewrite Hr, <- Heq.
    apply in_map_iff. now exists r'. }
  rewrite Hnone. simpl. lia.
Qed.

Example sample_db_valid : valid_db sample_db = true.
Proof. vm_compute. reflexivity. Qed.

(** C2: in a database state that satisfies the declared constraints,
    usernames, emails and stock symbols are pairwise different, the
    [user_id] column of the summaries is pairwise different, and so each
    user has at most one [PortfolioSummary] row. *)
Theorem unique_columns (db : DB) (Hvalid : valid_db db = true) :
  NoDup (column "username" (rows_of db "users"))
  /\ NoDup (column "email" (rows_of db "users"))
  /\ NoDup (column "symbol" (rows_of db "stocks"))
  /\ NoDup (column "user_id" (rows_of db "portfolio_summaries"))
  /\ forall uid : Z,
       (length (rows_with "user_id" (VInt uid)
                          (rows_of db "portfolio_summaries")) <= 1)%nat.
Proof.
  assert (HU : valid_table db User = true)
    by (apply valid_db_table; [ exact Hvalid | simpl; tauto ]).
  assert (HS : valid_table db Stock = true)
    by (apply valid_db_table; [ exact Hvalid | simpl; tauto ]).
  assert (HP : valid_table db PortfolioSummary = true)
    by (apply valid_db_table; [ exact Hvalid | simpl; tauto ]).
  assert (Hsum : NoDup (column "user_id" (rows_of db "portfolio_summaries"))).
  { apply (unique_column_NoDup db PortfolioSummary _ eq_refl HP
             (mkField "user_id" int_t [foreign_key "users" "id"; unique; index]));
      [ simpl; tauto | reflexivity | reflexivity ]. }
  repeat split.
  - apply (unique_column_NoDup db User _ eq_refl HU
             (mkField "username" str_t [unique; max_length 50]));
      [ simpl; tauto | reflexivity | reflexivity ].
  - apply (unique_column_NoDup db User _ eq_refl HU
             (mkField "email" str_t [unique; max_length 255; regex email_regex]));
      [ simpl; tauto | reflexivity | reflexivity ].
  - apply (unique_column_NoDup db Stock _ eq_refl HS
             (mkField "symbol" str_t [unique; max_length 10; index]));
      [ simpl; tauto | reflexivity | reflexivity ].
  - exact Hsum.
  - intros uid. now apply rows_with_at_most_one.
Qed.

Lemma unique_columns_witness :
  NoDup (column "username" (rows_of sample_db "users"))
  /\ NoDup (column "email" (rows_of sample_db "users"))
  /\ NoDup (column "symbol" (rows_of sample_db "stocks"))
  /\ NoDup (column "user_id" (rows_of sample_db "portfolio_summaries"))
  /\ forall uid : Z,
       (length (rows_with "user_id" (VInt uid)
                          (rows_of sample_db "portfolio_summaries")) <= 1)%nat.
Proof. apply (unique_columns sample_db). vm_compute. reflexivity. Defined.


(** ** Validation *)

Lemma traverse_length {A B : Type} (g : A -> option B) :
  forall l l', traverse g l = Some l' -> length l' = length l.
Proof.
  induction l as [ | x l IH ]; intros l' H; simpl in H.
  - now injection H as <-.
  - destruct (g x) as [y | ]; [ | discriminate ].
    destruct (traverse g l) as [ys | ]; [ | discriminate ].
    injection H as <-. simpl. f_equal. now apply IH.
Qed.

Lemma traverse_idem {A : Type} (g g' : A -> option A) :
  (forall x y, g x = Some y -> g' y = Some y) ->
  forall l l', traverse g l = Some l' -> traverse g' l' = Some l'.
Proof.
  intros Hg. induction l as [ | x l IH ]; intros l' H; simpl in H.
  - now injection H as <-.
  - destruct (g x) as [y | ] eqn:Hx; [ | discriminate ].
    destruct (traverse g l) as [ys | ]; [ | discriminate ].
    injection H as <-. simpl.
    now rewrite (Hg x y Hx), (IH ys eq_refl).
Qed.

Lemma check_constraints_same lib f v v' :
  check_constraints lib f v = Ok v' -> v' = v.
Proof.
  unfold check_constraints. destruct v;
    try (intros H; injection H as <-; reflexivity).
  - destruct (match f_max_length f with
              | Some n => (py_len s <=? n)%nat
              | None => true
              end); [ | discriminate ].
    destruct (match regex_checked lib f with
              | Some r => Re.anchored_match r s
              | None => true
              end); [ | discriminate ].
    intros H. now injection H as <-.
  - destruct (match f_decimal_places f with
              | Some p => (normalized_places d <=? p)%nat
              | None => true
              end); [ | discriminate ].
    intros H. now injection H as <-.
Qed.

Lemma has_type_datetime_any t a b :
  has_type t (VDatetime a) = true -> has_type t (VDatetime b) = true.
Proof. induction t; simpl; auto. Qed.

(** A value of the annotated type that is no list converts to itself. *)
Lemma has_type_coerce_with elem t :
  forall v, has_type t v = true -> is_list v = false ->
            coerce_with elem t v = Some v.
Proof.
  induction t; intros v H Hl; destruct v; simpl in *; try discriminate;
    try reflexivity; auto.
Qed.

Section Chain.

Variable elem : string -> Row -> option Row.
Variable lib : Pydantic.
Variable now : Clock.

Lemma coerce_with_has_type t :
  forall v v', coerce_with elem t v = Some v' -> has_type t v' = true.
Proof.
  induction t; intros v v' H; destruct v; simpl in H; try discriminate;
    try (injection H as <-; reflexivity);
    try (apply IHt in H; simpl; destruct v'; auto; fail).
  - destruct (parse_int s); simpl in H;
      [ injection H as <-; reflexivity | discriminate ].
  - destruct (parse_decimal s); simpl in H;
      [ injection H as <-; reflexivity | discriminate ].
  - destruct (parse_datetime s); simpl in H;
      [ injection H as <-; reflexivity | discriminate ].
  - destruct (TransactionTypeEnum.of_value s); simpl in H;
      [ injection H as <-; reflexivity | discriminate ].
  - destruct (AlertTypeEnum.of_value s); simpl in H;
      [ injection H as <-; reflexivity | discriminate ].
  - destruct (AlertStatusEnum.of_value s); simpl in H;
      [ injection H as <-; reflexivity | discriminate ].
  - destruct (traverse (coerce_element elem model) xs); simpl in H;
      [ injection H as <-; reflexivity | discriminate ].
Qed.

(** A validated field holds its default (the key was absent) or the
    conversion of the supplied value, which passed the constraints. *)
Lemma validate_field_with_cases f kw v :
  validate_field_with elem lib now f kw = Ok v ->
  (lookup kw (fname f) = None
   /\ (f_default f = DefaultValue v
       \/ (f_default f = DefaultUtcnow /\ v = VDatetime (now (fname f)))))
  \/ (exists w, lookup kw (fname f) = Some w
                /\ coerce_with elem (annotation f) w = Some v
                /\ check_constraints lib f v = Ok v).
Proof.
  unfold validate_field_with.
  destruct (lookup kw (fname f)) as [w | ].
  - destruct (coerce_with elem (annotation f) w) as [w' | ] eqn:Hc;
      [ | destruct w; discriminate ].
    intros H. right. pose proof (check_constraints_same _ _ _ _ H) as ->.
    exists w. auto.
  - destruct (f_default f) as [ | d | ]; intros H; try discriminate;
      injection H as <-; left; auto.
Qed.

(** The validated row binds each declared name to the outcome of its
    (first) declaration. *)
Lemma validate_fields_with_find kw n f :
  forall fs row,
    validate_fields_with elem lib now fs kw = Ok row ->
    find (fun g => fname g =? n) fs = Some f ->
    exists v, validate_field_with elem lib now f kw = Ok v
              /\ lookup row n = Some v.
Proof.
  induction fs as [ | g fs IH ]; intros row Hv Hf; [ discriminate | ].
  simpl in Hv, Hf.
  destruct (validate_field_with elem lib now g kw) as [v | ] eqn:Hg;
    [ | discriminate ].
  destruct (validate_fields_with elem lib now fs kw) as [row' | ];
    [ | discriminate ].
  injection Hv as <-. simpl.
  destruct (fname g =? n) eqn:Hn.
  - injection Hf as <-. now exists v.
  - now apply IH.
Qed.

Variable elem' : string -> Row -> option Row.
Variable now' : Clock.

Lemma validate_fields_with_ext kw kw' :
  forall fs row,
    validate_fields_with elem lib now fs kw = Ok row ->
    (forall f v, In f fs -> validate_field_with elem lib now f kw = Ok v ->
                 validate_field_with elem' lib now' f kw' = Ok v) ->
    validate_fields_with elem' lib now' fs kw' = Ok row.
Proof.
  induction fs as [ | f fs IH ]; intros row Hv Hext; simpl in *;
    [ exact Hv | ].
  destruct (validate_field_with elem lib now f kw) as [v | ] eqn:Hf;
    [ | discriminate ].
  destruct (validate_fields_with elem lib now fs kw) as [row' | ] eqn:Hfs;
    [ | discriminate ].
  rewrite (Hext f v (or_introl eq_refl) Hf).
  rewrite (IH row' eq_refl (fun g w Hg => Hext g w (or_intror Hg))).
  exact Hv.
Qed.

Hypothesis elem_idem :
  forall n kw row, elem n kw = Some row -> elem' n row = Some row.

(** A converted value converts to itself. *)
Lemma coerce_with_idem t :
  forall v v', coerce_with elem t v = Some v' ->
               coerce_with elem' t v' = Some v'.
Proof.
  induction t; intros v v' H; destruct v; simpl in H; try discriminate;
    try (injection H as <-; reflexivity);
    try (apply IHt in H; simpl; destruct v'; auto; fail).
  - destruct (parse_int s); simpl in H;
      [ injection H as <-; reflexivity | discriminate ].
  - destruct (parse_decimal s); simpl in H;
      [ injection H as <-; reflexivity | discriminate ].
  - destruct (parse_datetime s); simpl in H;
      [ injection H as <-; reflexivity | discriminate ].
  - destruct (TransactionTypeEnum.of_value s); simpl in H;
      [ injection H as <-; reflexivity | discriminate ].
  - destruct (AlertTypeEnum.of_value s); simpl in H;
      [ injection H as <-; reflexivity | discriminate ].
  - destruct (AlertStatusEnum.of_value s); simpl in H;
      [ injection H as <-; reflexivity | discriminate ].
  - destruct (traverse (coerce_element elem model) xs) as [ys | ] eqn:Ht;
      simpl in H; [ | discriminate ].
    injection H as <-. simpl.
    rewrite (traverse_idem (coerce_element elem model)
               (coerce_element elem' model)) with (l := xs);
      [ reflexivity | | exact Ht ].
    intros x y Hx. unfold coerce_element in *.
    destruct x; try discriminate.
    destruct (elem model kvs) as [r | ] eqn:He; simpl in Hx; [ | discriminate ].
    injection Hx as <-. now rewrite (elem_idem _ _ _ He).
Qed.

(** Validating a validated row of well-declared fields gives it back. *)
Lemma validate_fields_with_idem fs kw row :
  NoDup (map fname fs) ->
  (forall f, In f fs -> default_revalidates f = true) ->
  validate_fields_with elem lib now fs kw = Ok row ->
  validate_fields_with elem' lib now' fs row = Ok row.
Proof.
  intros Hnd Hdef Hv.
  apply (validate_fields_with_ext kw row fs row Hv).
  intros f v Hf Hfv.
  assert (Hfind : find (fun g => fname g =? fname f) fs = Some f).
  { clear - Hnd Hf. induction fs as [ | g fs' IH ]; [ contradiction | ].
    simpl in *. inversion Hnd as [ | x xs Hnotin Hnd' ]; subst.
    destruct Hf as [-> | Hf].
    - now rewrite String.eqb_refl.
    - destruct (fname g =? fname f) eqn:Hg; [ | now apply IH ].
      apply String.eqb_eq in Hg. exfalso. apply Hnotin. rewrite Hg.
      now apply in_map. }
  destruct (validate_fields_with_find kw (fname f) f fs row Hv Hfind)
    as [v' [Hfv' Hl]].
  rewrite Hfv in Hfv'. injection Hfv' as <-.
  unfold validate_field_with. rewrite Hl.
  specialize (Hdef f Hf). unfold default_revalidates in Hdef.
  destruct (validate_field_with_cases f kw v Hfv)
    as [[_ [Hd | [Hd ->]]] | [w [_ [Hc Hk]]]].
  - rewrite Hd in Hdef.
    apply andb_true_iff in Hdef. destruct Hdef as [Hdef H2].
    apply andb_true_iff in Hdef. destruct Hdef as [Hdef H1].
    apply andb_true_iff in Hdef. destruct Hdef as [Ht Hl'].
    apply negb_true_iff in Hl'.
    rewrite (has_type_coerce_with elem' (annotation f) v Ht Hl').
    destruct lib.
    + destruct (check_constraints pydantic_1 f v) as [u | ] eqn:Hu;
        [ | discriminate ].
      now rewrite (check_constraints_same _ _ _ _ Hu).
    + destruct (check_constraints pydantic_2 f v) as [u | ] eqn:Hu;
        [ | discriminate ].
      now rewrite (check_constraints_same _ _ _ _ Hu).
  - rewrite Hd in Hdef.
    rewrite (has_type_coerce_with elem' (annotation f) (VDatetime (now (fname f)))
               (has_type_datetime_any _ _ _ Hdef) eq_refl).
    reflexivity.
  - now rewrite (coerce_with_idem _ _ _ Hc).
Qed.

End Chain.

(** ** Declarations are well formed *)

Lemma distinct_names_NoDup ns : distinct_names ns = true -> NoDup ns.
Proof.
  induction ns as [ | n ns IH ]; simpl; intros H; [ constructor | ].
  apply andb_true_iff in H. destruct H as [Hn Hns].
  constructor; [ | now apply IH ].
  intros Hin. assert (He : existsb (String.eqb n) ns = true).
  { apply existsb_exists. exists n. split; [ exact Hin | apply String.eqb_refl ]. }
  rewrite He in Hn. discriminate.
Qed.

Lemma all_models_distinct_names :
  forallb (fun m => distinct_names (field_names m)) all_models = true.
Proof. vm_compute. reflexivity. Qed.

Lemma all_models_defaults_revalidate :
  forallb (fun m => forallb default_revalidates (fields m)) all_models = true.
Proof. vm_compute. reflexivity. Qed.

(** No [Optional] field is left without a default, so the outcome for an
    omitted [Optional] field never rests on an implicit [None]. *)
Lemma optional_fields_have_default :
  forallb (fun m =>
             forallb (fun f =>
                        negb (is_optional (annotation f))
                        || match f_default f with
                           | DefaultValue VNone => true
                           | _ => false
                           end) (fields m)) all_models = true.
Proof. vm_compute. reflexivity. Qed.

Lemma field_names_NoDup m : In m all_models -> NoDup (map fname (fields m)).
Proof.
  intros Hm. apply distinct_names_NoDup.
  pose proof all_models_distinct_names as H.
  rewrite forallb_forall in H. now apply H.
Qed.

Lemma default_revalidates_In m f :
  In m all_models -> In f (fields m) -> default_revalidates f = true.
Proof.
  intros Hm Hf. pose proof all_models_defaults_revalidate as H.
  rewrite forallb_forall in H. specialize (H m Hm).
  rewrite forallb_forall in H. now apply H.
Qed.

Lemma find_NoDup_In n f :
  forall fs,
    NoDup (map fname fs) -> In f fs -> fname f = n ->
    find (fun g => fname g =? n) fs = Some f.
Proof.
  induction fs as [ | g fs IH ]; intros Hnd Hin Hn; [ contradiction | ].
  simpl in *. inversion Hnd as [ | x xs Hnotin Hnd' ]; subst.
  destruct Hin as [-> | Hin].
  - now rewrite String.eqb_refl.
  - destruct (fname g =? fname f) eqn:Hg; [ | now apply IH ].
    apply String.eqb_eq in Hg. exfalso. apply Hnotin. rewrite Hg.
    now apply in_map.
Qed.

Lemma find_field_In m f :
  In m all_models -> In f (fields m) -> find_field m (fname f) = Some f.
Proof.
  intros Hm Hf. apply find_NoDup_In; [ | exact Hf | reflexivity ].
  now apply field_names_NoDup.
Qed.

Lemma find_field_some m n f :
  find_field m n = Some f -> In f (fields m) /\ fname f = n.
Proof.
  unfold find_field. intros H. apply find_some in H.
  destruct H as [Hin Hn]. now apply String.eqb_eq in Hn.
Qed.

(** ** Validation of the module's models *)

(** A validated field holds its default (the key was absent) or a value
    of the annotated type that passed the field's constraints. *)
Lemma validate_field_cases lib now f kw v :
  validate_field lib now f kw = Ok v ->
  (lookup kw (fname f) = None
   /\ (f_default f = DefaultValue v
       \/ (f_default f = DefaultUtcnow /\ v = VDatetime (now (fname f)))))
  \/ (lookup kw (fname f) <> None
      /\ has_type (annotation f) v = true
      /\ check_constraints lib f v = Ok v).
Proof.
  unfold validate_field. intros H.
  destruct (validate_field_with_cases _ _ _ _ _ _ H)
    as [Hl | [w [Hk [Hc Hcc]]]]; [ now left | right ].
  split; [ congruence | ]. split; [ | exact Hcc ].
  eapply coerce_with_has_type; eassumption.
Qed.

Lemma validate_find lib m now kw row n f :
  validate lib m now kw = Ok row ->
  find_field m n = Some f ->
  exists v, validate_field lib now f kw = Ok v /\ lookup row n = Some v.
Proof.
  unfold validate, validate_fields, validate_field, find_field.
  apply validate_fields_with_find.
Qed.

(** An omitted field with [default=d] comes out as [d]. *)
Lemma validate_omitted_default lib m now kw row n f d :
  validate lib m now kw = Ok row ->
  find_field m n = Some f ->
  fname f = n ->
  f_default f = DefaultValue d ->
  lookup kw n = None ->
  lookup row n = Some d.
Proof.
  intros Hv Hf Hn Hd Hkw.
  destruct (validate_find _ _ _ _ _ _ _ Hv Hf) as [v [Hfv Hrow]].
  unfold validate_field, validate_field_with in Hfv.
  rewrite Hn, Hkw, Hd in Hfv.
  injection Hfv as <-. exact Hrow.
Qed.

Ltac omitted_default Hv Hkw :=
  eapply validate_omitted_default;
  [ exact Hv | reflexivity | reflexivity | reflexivity | exact Hkw ].

Lemma validate_field_typed lib now f kw v :
  default_revalidates f = true ->
  validate_field lib now f kw = Ok v ->
  has_type (annotation f) v = true /\ check_constraints lib f v = Ok v.
Proof.
  intros Hd Hv. unfold default_revalidates in Hd.
  destruct (validate_field_cases _ _ _ _ _ Hv)
    as [[_ [Hdef | [Hdef ->]]] | [_ [Ht Hc]]].
  - rewrite Hdef in Hd.
    apply andb_true_iff in Hd. destruct Hd as [Hd H2].
    apply andb_true_iff in Hd. destruct Hd as [Hd H1].
    apply andb_true_iff in Hd. destruct Hd as [Ht _].
    split; [ exact Ht | ]. destruct lib.
    + destruct (check_constraints pydantic_1 f v) as [v' | ] eqn:Hcc;
        [ | discriminate ].
      now rewrite (check_constraints_same _ _ _ _ Hcc).
    + destruct (check_constraints pydantic_2 f v) as [v' | ] eqn:Hcc;
        [ | discriminate ].
      now rewrite (check_constraints_same _ _ _ _ Hcc).
  - rewrite Hdef in Hd. split; [ | reflexivity ].
    now apply (has_type_datetime_any _ 0).
  - now split.
Qed.

Lemma validated_field_typed lib m now kw row f :
  In m all_models -> In f (fields m) ->
  validate lib m now kw = Ok row ->
  exists v, lookup row (fname f) = Some v
            /\ validate_field lib now f kw = Ok v
            /\ has_type (annotation f) v = true
            /\ check_constraints lib f v = Ok v.
Proof.
  intros Hm Hf Hv.
  destruct (validate_find lib m now kw row (fname f) f Hv
              (find_field_In m f Hm Hf)) as [v [Hfv Hl]].
  exists v. split; [ exact Hl | ]. split; [ exact Hfv | ].
  apply (validate_field_typed lib now f kw); [ | exact Hfv ].
  now apply (default_revalidates_In m).
Qed.

(** An element that validated validates to itself, at any clock. *)
Lemma validate_element_idem lib now now' n kw row :
  validate_element lib now n kw = Some row ->
  validate_element lib now' n row = Some row.
Proof.
  unfold validate_element.
  destruct (find_model n) as [m | ] eqn:Hm; [ | discriminate ].
  destruct (validate_fields_with no_elements lib now (fields m) kw)
    as [r | ] eqn:Hv; [ | discriminate ].
  intros H. injection H as <-.
  unfold find_model in Hm. apply find_some in Hm. destruct Hm as [Hin _].
  rewrite (validate_fields_with_idem no_elements lib now no_elements now'
             (fun _ _ _ H => H) (fields m) kw r
             (field_names_NoDup m Hin)
             (fun f Hf => default_revalidates_In m f Hin Hf) Hv).
  reflexivity.
Qed.

(** ** Enumerated fields *)

Lemma has_type_AlertStatus v :
  has_type AlertStatus_t v = true -> exists s, v = VAlertStatus s.
Proof. destruct v; simpl; try discriminate. intros _. now eexists. Qed.

Lemma has_type_TransactionType v :
  has_type TransactionType_t v = true -> exists t, v = VTransactionType t.
Proof. destruct v; simpl; try discriminate. intros _. now eexists. Qed.

Lemma AlertStatus_of_value_strings str :
  AlertStatusEnum.of_value str <> None ->
  In str ["ACTIVE"; "TRIGGERED"; "DISABLED"].
Proof.
  destruct (AlertStatusEnum.of_value str) as [m | ] eqn:E; [ | congruence ].
  intros _. apply find_some in E. destruct E as [_ E].
  apply String.eqb_eq in E. subst str. destruct m; simpl; tauto.
Qed.

Lemma TransactionType_of_value_strings str :
  TransactionTypeEnum.of_value str <> None -> In str ["BUY"; "SELL"].
Proof.
  destruct (TransactionTypeEnum.of_value str) as [m | ] eqn:E; [ | congruence ].
  intros _. apply find_some in E. destruct E as [_ E].
  apply String.eqb_eq in E. subst str. destruct m; simpl; tauto.
Qed.

Example unchecked_enum_db_valid : valid_db unchecked_enum_db = true.
Proof. vm_compute. reflexivity. Qed.

(** C3, as stated, fails for stored records: a state that satisfies
    every declared constraint holds an alert whose status is the string
    BOGUS, which names no member of [AlertStatus]. *)
Lemma stored_status_unchecked :
  ~ (forall db,
       valid_db db = true ->
       (forall r, In r (rows_of db "price_alerts") ->
                  exists s, cell r "status" = VAlertStatus s)
       /\ (forall r, In r (rows_of db "transactions") ->
                     exists t, cell r "transaction_type" = VTransactionType t)).
Proof.
  intros H.
  destruct (H unchecked_enum_db unchecked_enum_db_valid) as [Ha _].
  destruct (Ha (hd [] (rows_of unchecked_enum_db "price_alerts")))
    as [s Hs]; [ simpl; tauto | ].
  vm_compute in Hs. discriminate Hs.
Qed.

(** C3, amended: [AlertStatus] has the members ACTIVE, TRIGGERED and
    DISABLED and [TransactionType] the members BUY and SELL and no
    others; every [PriceAlert] and [Transaction] that validation lets
    through holds one of them as status and transaction type, and the
    only strings taken for a member are the members' names.  A stored
    record is not so restricted: the declared constraints do not check
    the value of either column. *)
Theorem enum_fields_closed :
  (forall s : AlertStatus, In s [ACTIVE; TRIGGERED; DISABLED])
  /\ (forall t : TransactionType, In t [BUY; SELL])
  /\ (forall lib now kw row,
        validate lib PriceAlert now kw = Ok row ->
        exists s, lookup row "status" = Some (VAlertStatus s))
  /\ (forall lib now kw row,
        validate lib Transaction now kw = Ok row ->
        exists t, lookup row "transaction_type" = Some (VTransactionType t))
  /\ (forall str, AlertStatusEnum.of_value str <> None ->
                  In str ["ACTIVE"; "TRIGGERED"; "DISABLED"])
  /\ (forall str, TransactionTypeEnum.of_value str <> None ->
                  In str ["BUY"; "SELL"])
  /\ valid_db unchecked_enum_db = true
  /\ cell (hd [] (rows_of unchecked_enum_db "price_alerts")) "status"
     = VStr "BOGUS"
  /\ cell (hd [] (rows_of unchecked_enum_db "transactions")) "transaction_type"
     = VStr "HOLD".
Proof.
  split; [ intros []; simpl; tauto | ].
  split; [ intros []; simpl; tauto | ].
  split.
  { intros lib now kw row Hv.
    destruct (validate_find lib PriceAlert now kw row "status" _ Hv eq_refl)
      as [v [Hf Hrow]].
    rewrite Hrow.
    destruct (validate_field_cases _ _ _ _ _ Hf)
      as [[_ [Hd | [Hd _]]] | [_ [Ht _]]].
    - injection Hd as <-. now eexists.
    - discriminate.
    - destruct (has_type_AlertStatus _ Ht) as [s ->]. now eexists. }
  split.
  { intros lib now kw row Hv.
    destruct (validate_find lib Transaction now kw row "transaction_type" _
                Hv eq_refl) as [v [Hf Hrow]].
    rewrite Hrow.
    destruct (validate_field_cases _ _ _ _ _ Hf)
      as [[_ [Hd | [Hd _]]] | [_ [Ht _]]]; try discriminate.
    destruct (has_type_TransactionType _ Ht) as [t ->]. now eexists. }
  split; [ exact AlertStatus_of_value_strings | ].
  split; [ exact TransactionType_of_value_strings | ].
  repeat split; vm_compute; reflexivity.
Qed.

Lemma enum_fields_closed_witness :
  (exists s,
     lookup [("id", VNone); ("user_id", VInt 1); ("stock_id", VInt 1);
             ("alert_type", VAlertType ABOVE);
             ("target_price", VDecimal (mkDecimal 110 0));
             ("status", VAlertStatus DISABLED); ("message", VNone);
             ("triggered_at", VNone);
             ("created_at", VDatetime 100); ("updated_at", VDatetime 101)]
            "status" = Some (VAlertStatus s))
  /\ In "TRIGGERED" ["ACTIVE"; "TRIGGERED"; "DISABLED"].
Proof.
  destruct enum_fields_closed as [_ [_ [Hv [_ [Hstr _]]]]].
  split.
  - apply (Hv pydantic_2 sample_clock
             [("user_id", VInt 1); ("stock_id", VStr "1");
              ("alert_type", VStr "ABOVE"); ("target_price", VStr "110");
              ("status", VStr "DISABLED")]).
    vm_compute. reflexivity.
  - apply Hstr. vm_compute. discriminate.
Defined.

(** A string that names no member is turned away, by either version. *)
Example unknown_status_rejected :
  forall lib now,
    validate lib PriceAlertUpdate now [("status", VStr "BOGUS")]
    = Err (type_error "status").
Proof. intros [] now; reflexivity. Qed.

(** ** Shapes against entities *)

(** C1, as stated, fails: [PortfolioHoldingResponse] is a response shape
    that declares [id], and it declares [stock_symbol], which
    [PortfolioHolding] does not. *)
Lemma response_shape_exposes_id :
  ~ (forall s e,
       In (s, e) corresponding_entity ->
       (forall n, In n (field_names s) -> In n (field_names e))
       /\ (is_response s = true ->
           forall n, In n internal_fields -> ~ In n (field_names s))).
Proof.
  intros H.
  destruct (H PortfolioHoldingResponse PortfolioHolding) as [_ Hint];
    [ simpl; tauto | ].
  apply (Hint eq_refl "id"); simpl; tauto.
Qed.

(** C1, amended: every request shape and [StockSearchResponse] declares
    only fields of its entity and none of [id], [created_at],
    [updated_at], [last_updated].  [PortfolioHoldingResponse] declares
    [id] (no timestamp) and five fields that [PortfolioHolding] lacks;
    [PortfolioSummaryResponse] declares no internal field and one field,
    [holdings], that [PortfolioSummary] lacks. *)
Theorem shapes_mirror_entities :
  map fst corresponding_entity = api_shapes
  /\ Forall (fun p => extra_fields (fst p) (snd p) = []
                      /\ exposed_internal (fst p) = [])
            (filter (fun p =>
                       negb (mname (fst p) =? "PortfolioHoldingResponse")
                       && negb (mname (fst p) =? "PortfolioSummaryResponse"))
                    corresponding_entity)
  /\ exposed_internal PortfolioHoldingResponse = ["id"]
  /\ extra_fields PortfolioHoldingResponse PortfolioHolding
     = ["stock_symbol"; "stock_name"; "current_price"; "day_change";
        "day_change_percent"]
  /\ exposed_internal PortfolioSummaryResponse = []
  /\ extra_fields PortfolioSummaryResponse PortfolioSummary = ["holdings"].
Proof.
  split; [ reflexivity | ].
  split; [ | repeat split; reflexivity ].
  apply Forall_forall. intros [s e] Hin.
  apply filter_In in Hin. destruct Hin as [Hin Hkeep].
  simpl in Hin.
  repeat (destruct Hin as [Hin | Hin];
          [ injection Hin as <- <-;
            first [ split; reflexivity | discriminate Hkeep ] | ]).
  contradiction.
Qed.

(** ** Decimal fields *)




(** ** Transactions have no update shape *)

(** C7: the only shape read against [Transaction] is
    [TransactionCreate], a create shape; the update shapes of the module
    are those of users, stocks, price alerts and stock prices, none is
    named after [Transaction] and none fits inside its fields. *)
Theorem transaction_has_no_update_shape :
  shapes_for Transaction = [TransactionCreate]
  /\ shape_kind TransactionCreate = CreateShape
  /\ filter (fun s => starts_with "Transaction" (mname s)) api_shapes
     = [TransactionCreate]
  /\ filter is_update all_models
     = [UserUpdate; StockUpdate; PriceAlertUpdate; StockPriceUpdate]
  /\ Forall (fun s => starts_with "Transaction" (mname s) = false
                      /\ extra_fields s Transaction <> [])
            (filter is_update all_models).
Proof.
  split; [ reflexivity | ].
  split; [ reflexivity | ].
  split; [ reflexivity | ].
  split; [ reflexivity | ].
  change (filter is_update all_models)
    with [UserUpdate; StockUpdate; PriceAlertUpdate; StockPriceUpdate].
  repeat constructor; vm_compute; discriminate.
Qed.

(** ** Alert status requests *)

(** C5, as stated, fails: a [PriceAlertUpdate] payload may ask for
    ACTIVE, whatever the alert's status is. *)
Lemma reactivation_request_validates :
  requested_status pydantic_2 sample_clock [("status", VStr "ACTIVE")]
  = Some ACTIVE
  /\ ~ ~ shape_permits TRIGGERED ACTIVE.
Proof.
  split; [ reflexivity | ].
  intros H. apply H.
  exists pydantic_2, sample_clock, [("status", VStr "ACTIVE")]. reflexivity.
Qed.

(** C5, amended: [PriceAlertUpdate.status] is the only status field among
    the API shapes and takes every member of [AlertStatus], given as a
    member or as its string; so an ACTIVE alert can be asked into
    TRIGGERED or DISABLED, and nothing in the shape keeps a TRIGGERED one
    from being asked back into ACTIVE. *)
Theorem status_requests_unguarded :
  filter (fun s => has_field s "status") api_shapes = [PriceAlertUpdate]
  /\ (forall lib now target,
        requested_status lib now [("status", VAlertStatus target)]
        = Some target)
  /\ (forall lib now target,
        requested_status lib now
          [("status", VStr (AlertStatusEnum.value target))]
        = Some target)
  /\ shape_permits ACTIVE TRIGGERED
  /\ shape_permits ACTIVE DISABLED
  /\ shape_permits TRIGGERED ACTIVE.
Proof.
  split; [ reflexivity | ].
  split; [ intros [] now []; reflexivity | ].
  split; [ intros [] now []; reflexivity | ].
  repeat split.
  - exists pydantic_1, sample_clock, [("status", VAlertStatus TRIGGERED)].
    reflexivity.
  - exists pydantic_1, sample_clock, [("status", VAlertStatus DISABLED)].
    reflexivity.
  - exists pydantic_1, sample_clock, [("status", VAlertStatus ACTIVE)].
    reflexivity.
Qed.

(** ** Email validation *)

(** C6 at the failing input: [UserCreate] and [UserUpdate] let through,
    under either version, an email that the pattern of [User.email]
    turns away where it is checked, under pydantic 1. *)
Theorem create_shape_accepts_malformed_email :
  Re.anchored_match email_regex malformed_email = false
  /\ (forall now,
        validate pydantic_1 User now (user_payload malformed_email)
        = Err (regex_mismatch "email"))
  /\ (forall lib now,
        validate lib UserCreate now (user_payload malformed_email)
        = Ok (user_payload malformed_email))
  /\ (forall lib now,
        validate lib UserUpdate now [("email", VStr malformed_email)]
        = Ok [("username", VNone); ("email", VStr malformed_email);
              ("full_name", VNone); ("is_active", VNone)])
  /\ option_map f_regex (find_field User "email") = Some (Some email_regex)
  /\ option_map f_regex (find_field UserCreate "email") = Some None
  /\ option_map f_regex (find_field UserUpdate "email") = Some None.
Proof.
  split; [ vm_compute; reflexivity | ].
  split; [ intros now; vm_compute; reflexivity | ].
  split; [ intros [] now; vm_compute; reflexivity | ].
  split; [ intros [] now; vm_compute; reflexivity | ].
  repeat split; vm_compute; reflexivity.
Qed.

(** Under pydantic 2 the [regex=] of [User.email] is dropped, and the
    same payload validates as a [User] too. *)
Example malformed_email_under_pydantic_2 :
  forall now,
    validate pydantic_2 User now (user_payload malformed_email)
    = Ok [("id", VNone); ("username", VStr "alice");
          ("email", VStr malformed_email); ("full_name", VStr "Alice A");
          ("is_active", VBool true);
          ("created_at", VDatetime (now "created_at"));
          ("updated_at", VDatetime (now "updated_at"))].
Proof. intros now. vm_compute. reflexivity. Qed.

(** ** Defaults *)

(** C8: a price bar that carries only its stock, price, volume and
    timestamp validates as a [StockPriceHistory], a request that carries
    only price and volume validates as a [StockPriceUpdate], and in both
    the four OHLC fields, each [Optional] with default [None], come out
    as [None]; the stored row with four NULLs conforms to the table. *)
Theorem ohlc_fields_optional (lib : Pydantic) (now : Clock) (sid v t i : Z)
  (p : Decimal) (Hp : (decimals p <= 4)%nat) :
  validate lib StockPriceHistory now
    [("stock_id", VInt sid); ("price", VDecimal p); ("volume", VInt v);
     ("timestamp", VDatetime t)]
  = Ok [("id", VNone); ("stock_id", VInt sid); ("price", VDecimal p);
        ("volume", VInt v); ("timestamp", VDatetime t);
        ("open_price", VNone); ("high_price", VNone);
        ("low_price", VNone); ("close_price", VNone)]
  /\ validate lib StockPriceUpdate now
       [("price", VDecimal p); ("volume", VInt v)]
     = Ok [("price", VDecimal p); ("volume", VInt v);
           ("open_price", VNone); ("high_price", VNone);
           ("low_price", VNone); ("close_price", VNone)]
  /\ row_conforms StockPriceHistory
       [("id", VInt i); ("stock_id", VInt sid); ("price", VDecimal p);
        ("volume", VInt v); ("timestamp", VDatetime t);
        ("open_price", VNone); ("high_price", VNone);
        ("low_price", VNone); ("close_price", VNone)] = true
  /\ Forall (fun m =>
               Forall (fun n =>
                         exists f, find_field m n = Some f
                                   /\ annotation f = Optional Decimal_t
                                   /\ f_default f = DefaultValue VNone)
                      ["open_price"; "high_price"; "low_price"; "close_price"])
            [StockPriceHistory; StockPriceUpdate].
Proof.
  pose proof (normalized_places_leb p 4 Hp) as Hc.
  split; [ run_validate; rewrite Hc; reflexivity | ].
  split; [ run_validate; rewrite Hc; reflexivity | ].
  split; [ reflexivity | ].
  repeat constructor; eexists; repeat split; reflexivity.
Qed.

Lemma ohlc_fields_optional_witness :
  validate pydantic_1 StockPriceUpdate sample_clock
    [("price", VDecimal (mkDecimal 1012500 (-4))); ("volume", VInt 300)]
  = Ok [("price", VDecimal (mkDecimal 1012500 (-4))); ("volume", VInt 300);
        ("open_price", VNone); ("high_price", VNone);
        ("low_price", VNone); ("close_price", VNone)].
Proof.
  refine (proj1 (proj2 (ohlc_fields_optional pydantic_1 sample_clock 1 300 7 1
                          (mkDecimal 1012500 (-4)) _))).
  vm_compute. lia.
Defined.

(** C10: a [PortfolioHolding] built from its required fields alone has
    [current_value], [unrealized_gain_loss] and
    [unrealized_gain_loss_percent] equal to [Decimal("0")], and a
    [PortfolioSummary] built from [user_id] alone has its six totals equal
    to [Decimal("0")] and [number_of_holdings] equal to 0; the same holds
    for any payload that validates and leaves the field out. *)
Theorem derived_fields_default_zero (lib : Pydantic) (now : Clock)
  (uid sid : Z) (q ac ti : Decimal)
  (Hq : (decimals q <= 6)%nat) (Hac : (decimals ac <= 4)%nat)
  (Hti : (decimals ti <= 2)%nat) :
  validate lib PortfolioHolding now
    [("user_id", VInt uid); ("stock_id", VInt sid); ("quantity", VDecimal q);
     ("average_cost", VDecimal ac); ("total_invested", VDecimal ti)]
  = Ok [("id", VNone); ("user_id", VInt uid); ("stock_id", VInt sid);
        ("quantity", VDecimal q); ("average_cost", VDecimal ac);
        ("total_invested", VDecimal ti);
        ("current_value", VDecimal (mkDecimal 0 0));
        ("unrealized_gain_loss", VDecimal (mkDecimal 0 0));
        ("unrealized_gain_loss_percent", VDecimal (mkDecimal 0 0));
        ("created_at", VDatetime (now "created_at"));
        ("updated_at", VDatetime (now "updated_at"))]
  /\ validate lib PortfolioSummary now [("user_id", VInt uid)]
     = Ok [("id", VNone); ("user_id", VInt uid);
           ("total_value", VDecimal (mkDecimal 0 0));
           ("total_invested", VDecimal (mkDecimal 0 0));
           ("total_gain_loss", VDecimal (mkDecimal 0 0));
           ("total_gain_loss_percent", VDecimal (mkDecimal 0 0));
           ("day_change", VDecimal (mkDecimal 0 0));
           ("day_change_percent", VDecimal (mkDecimal 0 0));
           ("number_of_holdings", VInt 0);
           ("last_updated", VDatetime (now "last_updated"))]
  /\ (forall kw row n,
        In n ["current_value"; "unrealized_gain_loss";
              "unrealized_gain_loss_percent"] ->
        lookup kw n = None ->
        validate lib PortfolioHolding now kw = Ok row ->
        lookup row n = Some (VDecimal (mkDecimal 0 0)))
  /\ (forall kw row n,
        In n ["total_value"; "total_invested"; "total_gain_loss";
              "total_gain_loss_percent"; "day_change"; "day_change_percent"] ->
        lookup kw n = None ->
        validate lib PortfolioSummary now kw = Ok row ->
        lookup row n = Some (VDecimal (mkDecimal 0 0)))
  /\ (forall kw row,
        lookup kw "number_of_holdings" = None ->
        validate lib PortfolioSummary now kw = Ok row ->
        lookup row "number_of_holdings" = Some (VInt 0)).
Proof.
  pose proof (normalized_places_leb q 6 Hq) as Hcq.
  pose proof (normalized_places_leb ac 4 Hac) as Hca.
  pose proof (normalized_places_leb ti 2 Hti) as Hct.
  split; [ run_validate; rewrite Hcq, Hca, Hct; reflexivity | ].
  split; [ reflexivity | ].
  split.
  { intros kw row n Hn Hkw Hv. simpl in Hn.
    destruct Hn as [<- | [<- | [<- | []]]]; omitted_default Hv Hkw. }
  split.
  { intros kw row n Hn Hkw Hv. simpl in Hn.
    destruct Hn as [<- | [<- | [<- | [<- | [<- | [<- | []]]]]]];
      omitted_default Hv Hkw. }
  intros kw row Hkw Hv. omitted_default Hv Hkw.
Qed.

Lemma derived_fields_default_zero_witness :
  validate pydantic_2 PortfolioSummary sample_clock [("user_id", VInt 1)]
  = Ok [("id", VNone); ("user_id", VInt 1);
        ("total_value", VDecimal (mkDecimal 0 0));
        ("total_invested", VDecimal (mkDecimal 0 0));
        ("total_gain_loss", VDecimal (mkDecimal 0 0));
        ("total_gain_loss_percent", VDecimal (mkDecimal 0 0));
        ("day_change", VDecimal (mkDecimal 0 0));
        ("day_change_percent", VDecimal (mkDecimal 0 0));
        ("number_of_holdings", VInt 0);
        ("last_updated", VDatetime (sample_clock "last_updated"))]
  /\ lookup [("id", VNone); ("user_id", VInt 1); ("stock_id", VInt 1);
             ("quantity", VDecimal (mkDecimal 2500000 (-6)));
             ("average_cost", VDecimal (mkDecimal 1000000 (-4)));
             ("total_invested", VDecimal (mkDecimal 25000 (-2)));
             ("current_value", VDecimal (mkDecimal 0 0));
             ("unrealized_gain_loss", VDecimal (mkDecimal 0 0));
             ("unrealized_gain_loss_percent", VDecimal (mkDecimal 0 0));
             ("created_at", VDatetime (sample_clock "created_at"));
             ("updated_at", VDatetime (sample_clock "updated_at"))]
            "current_value"
     = Some (VDecimal (mkDecimal 0 0)).
Proof.
  assert (H6 : (decimals (mkDecimal 2500000 (-6)) <= 6)%nat) by (vm_compute; lia).
  assert (H4 : (decimals (mkDecimal 1000000 (-4)) <= 4)%nat) by (vm_compute; lia).
  assert (H2 : (decimals (mkDecimal 25000 (-2)) <= 2)%nat) by (vm_compute; lia).
  destruct (derived_fields_default_zero pydantic_2 sample_clock 1 1 _ _ _
              H6 H4 H2) as [Hh [Hs [Hg _]]].
  split; [ exact Hs | ].
  apply (Hg [("user_id", VInt 1); ("stock_id", VInt 1);
             ("quantity", VDecimal (mkDecimal 2500000 (-6)));
             ("average_cost", VDecimal (mkDecimal 1000000 (-4)));
             ("total_invested", VDecimal (mkDecimal 25000 (-2)))]);
    [ simpl; tauto | reflexivity | exact Hh ].
Defined.

(** ** New alerts *)

Lemma has_type_int v : has_type int_t v = true -> exists z, v = VInt z.
Proof. destruct v; simpl; try discriminate. intros _. now eexists. Qed.

Lemma has_type_AlertType v :
  has_type AlertType_t v = true -> exists a, v = VAlertType a.
Proof. destruct v; simpl; try discriminate. intros _. now eexists. Qed.

Lemma has_type_Decimal v :
  has_type Decimal_t v = true -> exists d, v = VDecimal d.
Proof. destruct v; simpl; try discriminate. intros _. now eexists. Qed.

Lemma has_type_Optional_str v :
  has_type (Optional str_t) v = true -> v = VNone \/ exists s, v = VStr s.
Proof.
  destruct v; simpl; try discriminate; intros _; [ now left | right; now eexists ].
Qed.

(** What a validated [PriceAlertCreate] looks like. *)
Lemma PriceAlertCreate_validated lib now kw c :
  validate lib PriceAlertCreate now kw = Ok c ->
  exists z a d msg,
    c = [("stock_id", VInt z); ("alert_type", VAlertType a);
         ("target_price", VDecimal d); ("message", msg)]
    /\ (normalized_places d <=? 4)%nat = true
    /\ (msg = VNone
        \/ exists s, msg = VStr s /\ (py_len s <=? 200)%nat = true).
Proof.
  unfold validate, validate_fields, PriceAlertCreate.
  cbn [fields validate_fields_with].
  fold (validate_field lib now (mkField "stock_id" int_t []) kw).
  fold (validate_field lib now (mkField "alert_type" AlertType_t []) kw).
  fold (validate_field lib now
          (mkField "target_price" Decimal_t [decimal_places 4]) kw).
  fold (validate_field lib now
          (mkField "message" (Optional str_t) [default VNone; max_length 200])
          kw).
  destruct (validate_field lib now (mkField "stock_id" int_t []) kw)
    as [v1 | ] eqn:H1; [ | discriminate ].
  destruct (validate_field lib now (mkField "alert_type" AlertType_t []) kw)
    as [v2 | ] eqn:H2; [ | discriminate ].
  destruct (validate_field lib now
              (mkField "target_price" Decimal_t [decimal_places 4]) kw)
    as [v3 | ] eqn:H3; [ | discriminate ].
  destruct (validate_field lib now
              (mkField "message" (Optional str_t) [default VNone; max_length 200])
              kw)
    as [v4 | ] eqn:H4; [ | discriminate ].
  intros H. injection H as <-. cbn [fname].
  destruct (validate_field_cases _ _ _ _ _ H1)
    as [[_ [Hd | [Hd _]]] | [_ [Ht1 _]]]; try discriminate.
  destruct (validate_field_cases _ _ _ _ _ H2)
    as [[_ [Hd | [Hd _]]] | [_ [Ht2 _]]]; try discriminate.
  destruct (validate_field_cases _ _ _ _ _ H3)
    as [[_ [Hd | [Hd _]]] | [_ [Ht3 Hc3]]]; try discriminate.
  destruct (has_type_int _ Ht1) as [z ->].
  destruct (has_type_AlertType _ Ht2) as [a ->].
  destruct (has_type_Decimal _ Ht3) as [d ->].
  exists z, a, d, v4. split; [ reflexivity | ]. split.
  - unfold check_constraints in Hc3.
    cbn [f_decimal_places opts opts_decimal_places] in Hc3.
    destruct (normalized_places d <=? 4)%nat; [ reflexivity | discriminate ].
  - destruct (validate_field_cases _ _ _ _ _ H4)
      as [[_ [Hd | [Hd _]]] | [_ [Ht4 Hc4]]]; try discriminate.
    + injection Hd as <-. now left.
    + destruct (has_type_Optional_str _ Ht4) as [-> | [s ->]]; [ now left | ].
      right. exists s. split; [ reflexivity | ].
      unfold check_constraints in Hc4.
      cbn [f_max_length opts opts_max_length] in Hc4.
      destruct (py_len s <=? 200)%nat; [ reflexivity | discriminate ].
Qed.

(** C9, as stated, fails: a [PriceAlert] may be given its status and
    [triggered_at], and then does not start ACTIVE. *)
Lemma explicit_status_accepted :
  ~ (forall lib now kw row,
       validate lib PriceAlert now kw = Ok row ->
       lookup row "status" = Some (VAlertStatus ACTIVE)
       /\ lookup row "triggered_at" = Some VNone).
Proof.
  intros H.
  destruct (H pydantic_2 sample_clock
              [("user_id", VInt 1); ("stock_id", VInt 1);
               ("alert_type", VAlertType ABOVE); ("target_price", VInt 110);
               ("status", VAlertStatus TRIGGERED);
               ("triggered_at", VDatetime 150)]
              _ eq_refl) as [Hs _].
  vm_compute in Hs. discriminate Hs.
Qed.

(** C9, amended: a [PriceAlert] that validates from a payload without
    [status] and without [triggered_at] has status ACTIVE and
    [triggered_at] [None]; [PriceAlertCreate] declares neither field,
    and a validated [PriceAlertCreate] carries neither, whatever the
    client sent. *)
Theorem alert_without_status_is_active :
  has_field PriceAlertCreate "status" = false
  /\ has_field PriceAlertCreate "triggered_at" = false
  /\ (forall lib now kw row,
        lookup kw "status" = None -> lookup kw "triggered_at" = None ->
        validate lib PriceAlert now kw = Ok row ->
        lookup row "status" = Some (VAlertStatus ACTIVE)
        /\ lookup row "triggered_at" = Some VNone)
  /\ (forall lib now kw create,
        validate lib PriceAlertCreate now kw = Ok create ->
        lookup create "status" = None
        /\ lookup create "triggered_at" = None).
Proof.
  split; [ reflexivity | ].
  split; [ reflexivity | ].
  split.
  { intros lib now kw row Hs Ht Hv. split.
    - omitted_default Hv Hs.
    - omitted_default Hv Ht. }
  intros lib now kw create Hv.
  destruct (PriceAlertCreate_validated lib now kw create Hv)
    as [z [a [d [msg [-> _]]]]].
  split; reflexivity.
Qed.

Lemma alert_without_status_is_active_witness :
  (lookup [("id", VNone); ("user_id", VInt 1); ("stock_id", VInt 1);
           ("alert_type", VAlertType BELOW);
           ("target_price", VDecimal (mkDecimal 95 0));
           ("status", VAlertStatus ACTIVE); ("message", VNone);
           ("triggered_at", VNone);
           ("created_at", VDatetime 100); ("updated_at", VDatetime 101)]
          "status" = Some (VAlertStatus ACTIVE)
   /\ lookup [("id", VNone); ("user_id", VInt 1); ("stock_id", VInt 1);
              ("alert_type", VAlertType BELOW);
              ("target_price", VDecimal (mkDecimal 95 0));
              ("status", VAlertStatus ACTIVE); ("message", VNone);
              ("triggered_at", VNone);
              ("created_at", VDatetime 100); ("updated_at", VDatetime 101)]
             "triggered_at" = Some VNone)
  /\ (lookup [("stock_id", VInt 1); ("alert_type", VAlertType BELOW);
              ("target_price", VDecimal (mkDecimal 95 0)); ("message", VNone)]
             "status" = None
      /\ lookup [("stock_id", VInt 1); ("alert_type", VAlertType BELOW);
                 ("target_price", VDecimal (mkDecimal 95 0)); ("message", VNone)]
                "triggered_at" = None).
Proof.
  destruct alert_without_status_is_active as [_ [_ [Hd Hc]]].
  split.
  - apply (Hd pydantic_1 sample_clock
             [("user_id", VInt 1); ("stock_id", VInt 1);
              ("alert_type", VStr "BELOW"); ("target_price", VInt 95)]);
      [ reflexivity | reflexivity | vm_compute; reflexivity ].
  - apply (Hc pydantic_1 sample_clock
             [("stock_id", VInt 1); ("alert_type", VStr "BELOW");
              ("target_price", VInt 95); ("status", VStr "TRIGGERED");
              ("triggered_at", VDatetime 3)]).
    vm_compute. reflexivity.
Defined.

(** * Further properties *)

(** ** Pattern matching against the denoted language *)

Lemma append_empty_r (s : string) : s ++ "" = s.
Proof. induction s as [ | c s IH ]; simpl; [ reflexivity | now rewrite IH ]. Qed.

Lemma append_assoc_str (a b c : string) : (a ++ b) ++ c = a ++ (b ++ c).
Proof. induction a as [ | x a IH ]; simpl; [ reflexivity | now rewrite IH ]. Qed.
















(** The rest may itself hold dots and hyphens, so a trailing dot passes;
    a second [@] does not. *)
Example email_accepts_trailing_dot :
  Re.anchored_match email_regex "a@b.." = true.
Proof. vm_compute. reflexivity. Qed.

Example email_rejects_second_at :
  Re.anchored_match email_regex "a@b@c.d" = false.
Proof. vm_compute. reflexivity. Qed.

(** ** Validated rows *)



(** Validating a validated row again, at any later time, gives the row
    back unchanged. *)
Theorem validate_idempotent (lib : Pydantic) (m : ModelDecl)
  (now now' : Clock) (kw row : Row)
  (Hm : In m all_models) (Hv : validate lib m now kw = Ok row) :
  validate lib m now' row = Ok row.
Proof.
  unfold validate, validate_fields in *.
  apply (validate_fields_with_idem (validate_element lib now) lib now
           (validate_element lib now') now'
           (validate_element_idem lib now now') (fields m) kw row);
    [ now apply field_names_NoDup | | exact Hv ].
  intros f Hf. now apply (default_revalidates_In m).
Qed.

Lemma validate_idempotent_witness :
  validate pydantic_1 Transaction (fun _ => 9%Z)
    [("id", VNone); ("user_id", VInt 1); ("stock_id", VInt 1);
     ("transaction_type", VTransactionType SELL);
     ("quantity", VDecimal (mkDecimal 3 0));
     ("price", VDecimal (mkDecimal 1012500 (-4)));
     ("total_amount", VDecimal (mkDecimal 30375 (-2)));
     ("fees", VDecimal (mkDecimal 0 0)); ("notes", VNone);
     ("transaction_date", VDatetime 1709202600000000);
     ("created_at", VDatetime 100)]
  = Ok [("id", VNone); ("user_id", VInt 1); ("stock_id", VInt 1);
        ("transaction_type", VTransactionType SELL);
        ("quantity", VDecimal (mkDecimal 3 0));
        ("price", VDecimal (mkDecimal 1012500 (-4)));
        ("total_amount", VDecimal (mkDecimal 30375 (-2)));
        ("fees", VDecimal (mkDecimal 0 0)); ("notes", VNone);
        ("transaction_date", VDatetime 1709202600000000);
        ("created_at", VDatetime 100)].
Proof.
  apply (validate_idempotent pydantic_1 Transaction sample_clock (fun _ => 9%Z)
           [("user_id", VInt 1); ("stock_id", VInt 1);
            ("transaction_type", VStr "SELL"); ("quantity", VInt 3);
            ("price", VStr "101.2500");
            ("total_amount", VDecimal (mkDecimal 30375 (-2)));
            ("transaction_date", VStr "2024-02-29T10:30:00")]);
    [ simpl; tauto | vm_compute; reflexivity ].
Defined.

(** The elements of a list of holdings are validated too: one that
    lacks a field makes the list fail. *)
Example incomplete_holding_rejected :
  forall lib now,
    validate lib PortfolioSummaryResponse now
      [("total_value", VInt 1); ("total_invested", VInt 1);
       ("total_gain_loss", VInt 0); ("total_gain_loss_percent", VInt 0);
       ("day_change", VInt 0); ("day_change_percent", VInt 0);
       ("number_of_holdings", VInt 1);
       ("holdings", VList [VDict [("id", VInt 1)]])]
    = Err (type_error "holdings").
Proof. intros [] now; vm_compute; reflexivity. Qed.

(** A string that validation lets through has no more code points than
    the field's [max_length]. *)
Theorem max_length_enforced (lib : Pydantic) (m : ModelDecl) (f : FieldDecl)
  (n : nat) (now : Clock) (kw row : Row) (s : string)
  (Hm : In m all_models) (Hf : In f (fields m))
  (Hn : f_max_length f = Some n)
  (Hv : validate lib m now kw = Ok row)
  (Hrow : lookup row (fname f) = Some (VStr s)) :
  (py_len s <= n)%nat.
Proof.
  destruct (validated_field_typed lib m now kw row f Hm Hf Hv)
    as [v [Hl [_ [_ Hc]]]].
  rewrite Hrow in Hl. injection Hl as <-.
  unfold check_constraints in Hc. rewrite Hn in Hc.
  destruct (py_len s <=? n)%nat eqn:Hle; [ | discriminate ].
  now apply Nat.leb_le.
Qed.

Lemma max_length_enforced_witness : (py_len "ÉÉÉÉÉÉÉÉÉÉ" <= 10)%nat.
Proof.
  apply (max_length_enforced pydantic_2 StockCreate
           (mkField "symbol" str_t [max_length 10]) 10 sample_clock
           [("symbol", VStr "ÉÉÉÉÉÉÉÉÉÉ"); ("name", VStr "Acme Corp");
            ("exchange", VStr "NYSE"); ("current_price", VInt 101)]
           [("symbol", VStr "ÉÉÉÉÉÉÉÉÉÉ"); ("name", VStr "Acme Corp");
            ("exchange", VStr "NYSE"); ("sector", VNone);
            ("current_price", VDecimal (mkDecimal 101 0))]);
    [ simpl; tauto | simpl; tauto | reflexivity
    | vm_compute; reflexivity | reflexivity ].
Defined.

(** An over-long symbol is turned away. *)
Example overlong_symbol_rejected :
  forall lib now,
    validate lib StockCreate now
      [("symbol", VStr "ACMECORPORATION"); ("name", VStr "Acme Corp");
       ("exchange", VStr "NYSE"); ("current_price", VInt 101)]
    = Err (max_length_exceeded "symbol").
Proof. intros [] now; vm_compute; reflexivity. Qed.



(** A value with more places than declared is turned away; trailing
    zeros beyond the bound pass. *)
Example excess_places_rejected :
  forall lib now,
    validate lib StockCreate now
      [("symbol", VStr "ACME"); ("name", VStr "Acme Corp");
       ("exchange", VStr "NYSE");
       ("current_price", VDecimal (mkDecimal 10125001 (-5)))]
    = Err (decimal_places_exceeded "current_price").
Proof. intros [] now; vm_compute; reflexivity. Qed.

Example trailing_zeros_pass_under_pydantic_2 :
  forall now,
    validate pydantic_2 StockCreate now
      [("symbol", VStr "ACME"); ("name", VStr "Acme Corp");
       ("exchange", VStr "NYSE");
       ("current_price", VDecimal (mkDecimal 10125000 (-5)))]
    = Ok [("symbol", VStr "ACME"); ("name", VStr "Acme Corp");
          ("exchange", VStr "NYSE"); ("sector", VNone);
          ("current_price", VDecimal (mkDecimal 10125000 (-5)))].
Proof. intros now; vm_compute; reflexivity. Qed.

(** ** Enumerations as strings *)

(** Each member is found again from its string value, a string finds at
    most the member that carries it, and a field of the enumeration's
    type takes the string for the member. *)
Theorem enum_value_round_trip :
  (forall t, TransactionTypeEnum.of_value (TransactionTypeEnum.value t) = Some t)
  /\ (forall t, AlertTypeEnum.of_value (AlertTypeEnum.value t) = Some t)
  /\ (forall t, AlertStatusEnum.of_value (AlertStatusEnum.value t) = Some t)
  /\ (forall s t, TransactionTypeEnum.of_value s = Some t ->
                  TransactionTypeEnum.value t = s)
  /\ (forall s t, AlertTypeEnum.of_value s = Some t -> AlertTypeEnum.value t = s)
  /\ (forall s t, AlertStatusEnum.of_value s = Some t ->
                  AlertStatusEnum.value t = s)
  /\ (forall lib now t,
        coerce lib now TransactionType_t (VStr (TransactionTypeEnum.value t))
        = Some (VTransactionType t))
  /\ (forall lib now t,
        coerce lib now AlertType_t (VStr (AlertTypeEnum.value t))
        = Some (VAlertType t))
  /\ (forall lib now t,
        coerce lib now AlertStatus_t (VStr (AlertStatusEnum.value t))
        = Some (VAlertStatus t)).
Proof.
  split; [ intros []; reflexivity | ].
  split; [ intros []; reflexivity | ].
  split; [ intros []; reflexivity | ].
  split.
  { intros s t H. apply find_some in H. destruct H as [_ H].
    now apply String.eqb_eq in H. }
  split.
  { intros s t H. apply find_some in H. destruct H as [_ H].
    now apply String.eqb_eq in H. }
  split.
  { intros s t H. apply find_some in H. destruct H as [_ H].
    now apply String.eqb_eq in H. }
  split; [ intros lib now []; reflexivity | ].
  split; [ intros lib now []; reflexivity | ].
  intros lib now []; reflexivity.
Qed.

Lemma enum_value_round_trip_witness : AlertTypeEnum.value BELOW = "BELOW".
Proof.
  destruct enum_value_round_trip as [_ [_ [_ [_ [H _]]]]].
  apply H. vm_compute. reflexivity.
Defined.

(** The values are case sensitive. *)
Example lowercase_member_rejected :
  forall lib now,
    validate lib PriceAlertUpdate now [("status", VStr "active")]
    = Err (type_error "status").
Proof. intros [] now; vm_compute; reflexivity. Qed.

(** ** Relationships *)

(** Every [back_populates] names a relationship of the target model
    that points back and names this one in turn, one side a list and the
    other a single object; every single-object relationship [x] rests on
    a column [x_id] with a foreign key to the target's [id]; and every
    foreign key names the primary key of a table of the module. *)
Theorem relationships_wired :
  Forall (fun m => Forall (fun r => back_reference_ok m r = true
                                    /\ relationship_fk_ok m r = true)
                          (relationships m)) all_models
  /\ Forall (fun m => Forall (fun f => foreign_key_resolves f = true) (fields m))
            all_models
  /\ Forall (fun m => relationships m = []) api_shapes.
Proof.
  split.
  { apply Forall_forall. intros m Hm. apply Forall_forall. intros r Hr.
    assert (H : forallb (fun m => forallb (fun r =>
                  back_reference_ok m r && relationship_fk_ok m r)
                  (relationships m)) all_models = true)
      by (vm_compute; reflexivity).
    rewrite forallb_forall in H. specialize (H m Hm).
    rewrite forallb_forall in H. specialize (H r Hr).
    now apply andb_true_iff in H. }
  split.
  { apply Forall_forall. intros m Hm. apply Forall_forall. intros f Hf.
    assert (H : forallb (fun m => forallb foreign_key_resolves (fields m))
                        all_models = true) by (vm_compute; reflexivity).
    rewrite forallb_forall in H. specialize (H m Hm).
    rewrite forallb_forall in H. now apply H. }
  repeat constructor.
Qed.

(** ** Partial updates *)

(** In [UserUpdate], [StockUpdate] and [PriceAlertUpdate] every field may
    be left out: the empty payload validates, and a field that a payload
    leaves out comes back as [None]. *)
Theorem patch_shapes_accept_any_subset (lib : Pydantic) (m : ModelDecl)
  (now : Clock) (Hm : In m patch_shapes) :
  validate lib m now [] = Ok (map (fun n => (n, VNone)) (field_names m))
  /\ (forall kw row n,
        validate lib m now kw = Ok row ->
        In n (field_names m) -> lookup kw n = None ->
        lookup row n = Some VNone).
Proof.
  simpl in Hm. destruct Hm as [<- | [<- | [<- | []]]].
  - split; [ reflexivity | ].
    intros kw row n Hv Hn Hkw. simpl in Hn.
    destruct Hn as [<- | [<- | [<- | [<- | []]]]]; omitted_default Hv Hkw.
  - split; [ reflexivity | ].
    intros kw row n Hv Hn Hkw. simpl in Hn.
    destruct Hn as [<- | [<- | [<- | [<- | [<- | [<- | []]]]]]];
      omitted_default Hv Hkw.
  - split; [ reflexivity | ].
    intros kw row n Hv Hn Hkw. simpl in Hn.
    destruct Hn as [<- | [<- | [<- | [<- | []]]]]; omitted_default Hv Hkw.
Qed.

Lemma patch_shapes_accept_any_subset_witness :
  validate pydantic_1 StockUpdate sample_clock []
  = Ok (map (fun n => (n, VNone)) (field_names StockUpdate))
  /\ lookup [("alert_type", VNone); ("target_price", VNone);
             ("status", VAlertStatus DISABLED); ("message", VNone)]
            "target_price" = Some VNone.
Proof.
  split.
  - apply (patch_shapes_accept_any_subset pydantic_1 StockUpdate sample_clock).
    simpl. tauto.
  - apply (proj2 (patch_shapes_accept_any_subset pydantic_1 PriceAlertUpdate
                    sample_clock (or_intror (or_intror (or_introl eq_refl))))
             [("status", VStr "DISABLED")]);
      [ vm_compute; reflexivity | simpl; tauto | reflexivity ].
Defined.

(** [StockPriceUpdate] is no such shape: it needs a price. *)
Example price_update_needs_price :
  forall lib now,
    validate lib StockPriceUpdate now [] = Err (field_required "price").
Proof. intros [] now; vm_compute; reflexivity. Qed.

(** ** From [UserCreate] to [User] *)

Lemma has_type_str v : has_type str_t v = true -> exists s, v = VStr s.
Proof. destruct v; simpl; try discriminate. intros _. now eexists. Qed.

Lemma UserCreate_validated lib now kw c :
  validate lib UserCreate now kw = Ok c ->
  exists u e n,
    c = [("username", VStr u); ("email", VStr e); ("full_name", VStr n)]
    /\ (py_len u <=? 50)%nat = true
    /\ (py_len e <=? 255)%nat = true
    /\ (py_len n <=? 100)%nat = true.
Proof.
  unfold validate, validate_fields, UserCreate.
  cbn [fields validate_fields_with].
  fold (validate_field lib now (mkField "username" str_t [max_length 50]) kw).
  fold (validate_field lib now (mkField "email" str_t [max_length 255]) kw).
  fold (validate_field lib now (mkField "full_name" str_t [max_length 100]) kw).
  destruct (validate_field lib now (mkField "username" str_t [max_length 50]) kw)
    as [v1 | ] eqn:H1; [ | discriminate ].
  destruct (validate_field lib now (mkField "email" str_t [max_length 255]) kw)
    as [v2 | ] eqn:H2; [ | discriminate ].
  destruct (validate_field lib now (mkField "full_name" str_t [max_length 100]) kw)
    as [v3 | ] eqn:H3; [ | discriminate ].
  intros H. injection H as <-. cbn [fname].
  destruct (validate_field_cases _ _ _ _ _ H1)
    as [[_ [Hd | [Hd _]]] | [_ [Ht1 Hc1]]]; try discriminate.
  destruct (validate_field_cases _ _ _ _ _ H2)
    as [[_ [Hd | [Hd _]]] | [_ [Ht2 Hc2]]]; try discriminate.
  destruct (validate_field_cases _ _ _ _ _ H3)
    as [[_ [Hd | [Hd _]]] | [_ [Ht3 Hc3]]]; try discriminate.
  destruct (has_type_str _ Ht1) as [u ->].
  destruct (has_type_str _ Ht2) as [e ->].
  destruct (has_type_str _ Ht3) as [n ->].
  exists u, e, n. split; [ reflexivity | ].
  unfold check_constraints in Hc1, Hc2, Hc3.
  cbn [f_max_length opts opts_max_length] in Hc1, Hc2, Hc3.
  destruct (py_len u <=? 50)%nat; [ | discriminate ].
  destruct (py_len e <=? 255)%nat; [ | discriminate ].
  destruct (py_len n <=? 100)%nat; [ | discriminate ].
  auto.
Qed.

(** A validated [UserCreate] carries an email string.  Validated in turn
    as a [User] it goes through, under either version, when the email
    matches the pattern of [User.email], and always under pydantic 2,
    where the pattern is not checked; the user is then active, keeps the
    email and has no id yet. *)
Theorem user_create_into_user (lib : Pydantic) (now now' : Clock)
  (kw create : Row) (Hc : validate lib UserCreate now kw = Ok create) :
  exists e,
    lookup create "email" = Some (VStr e)
    /\ (Re.anchored_match email_regex e = true ->
        forall lib',
        exists row, validate lib' User now' create = Ok row
                    /\ lookup row "email" = Some (VStr e)
                    /\ lookup row "is_active" = Some (VBool true)
                    /\ lookup row "id" = Some VNone)
    /\ (exists row, validate pydantic_2 User now' create = Ok row
                    /\ lookup row "email" = Some (VStr e)
                    /\ lookup row "is_active" = Some (VBool true)
                    /\ lookup row "id" = Some VNone).
Proof.
  destruct (UserCreate_validated lib now kw create Hc)
    as [u [e [n [-> [Hu [He Hn]]]]]].
  exists e. split; [ reflexivity | ]. split.
  - intros Hm [].
    + eexists. run_validate. rewrite Hu, He, Hn, Hm. repeat split; reflexivity.
    + eexists. run_validate. rewrite Hu, He, Hn. repeat split; reflexivity.
  - eexists. run_validate. rewrite Hu, He, Hn. repeat split; reflexivity.
Qed.

Lemma user_create_into_user_witness :
  exists e,
    lookup (user_payload "alice@example.com") "email" = Some (VStr e)
    /\ (Re.anchored_match email_regex e = true ->
        forall lib',
        exists row,
          validate lib' User sample_clock (user_payload "alice@example.com")
          = Ok row
          /\ lookup row "email" = Some (VStr e)
          /\ lookup row "is_active" = Some (VBool true)
          /\ lookup row "id" = Some VNone)
    /\ (exists row,
          validate pydantic_2 User sample_clock
            (user_payload "alice@example.com") = Ok row
          /\ lookup row "email" = Some (VStr e)
          /\ lookup row "is_active" = Some (VBool true)
          /\ lookup row "id" = Some VNone).
Proof.
  apply (user_create_into_user pydantic_1 sample_clock sample_clock
           (("is_admin", VBool true) :: user_payload "alice@example.com")).
  vm_compute. reflexivity.
Defined.

(** ** Keys and references in a valid state *)

Lemma Value_eqb_eq : forall a b, Value_eqb a b = true -> a = b.
Proof.
  fix IH 1.
  intros [ | x | x | x | x | x | x | x | x | xs | xs ]
         [ | y | y | y | y | y | y | y | y | ys | ys ];
    simpl; try discriminate; intros H.
  - reflexivity.
  - apply Z.eqb_eq in H. now subst.
  - apply String.eqb_eq in H. now subst.
  - apply Bool.eqb_prop in H. now subst.
  - apply andb_true_iff in H. destruct H as [H1 H2].
    apply Z.eqb_eq in H1, H2. destruct x, y. simpl in *. now subst.
  - apply Z.eqb_eq in H. now subst.
  - destruct x, y; try reflexivity; vm_compute in H; discriminate.
  - destruct x, y; try reflexivity; vm_compute in H; discriminate.
  - destruct x, y; try reflexivity; vm_compute in H; discriminate.
  - f_equal. revert ys H.
    induction xs as [ | [k v] xs IHxs ]; intros [ | [k' v'] ys ] H;
      try discriminate; [ reflexivity | ].
    apply andb_true_iff in H. destruct H as [H H3].
    apply andb_true_iff in H. destruct H as [H1 H2].
    apply String.eqb_eq in H1. apply IH in H2. apply IHxs in H3.
    now subst.
  - f_equal. revert ys H.
    induction xs as [ | v xs IHxs ]; intros [ | v' ys ] H;
      try discriminate; [ reflexivity | ].
    apply andb_true_iff in H. destruct H as [H1 H2].
    apply IH in H1. apply IHxs in H2. now subst.
Qed.

Lemma NoDup_map_inj_In {A B : Type} (g : A -> B) (l : list A) :
  NoDup (map g l) -> forall x y, In x l -> In y l -> g x = g y -> x = y.
Proof.
  induction l as [ | a l IH ]; intros Hnd x y Hx Hy Hg; [ contradiction | ].
  simpl in Hnd. inversion Hnd as [ | b bs Hnotin Hnd' ]; subst.
  destruct Hx as [-> | Hx], Hy as [-> | Hy].
  - reflexivity.
  - exfalso. apply Hnotin. rewrite Hg. now apply in_map.
  - exfalso. apply Hnotin. rewrite <- Hg. now apply in_map.
  - now apply IH.
Qed.

Lemma key_column db m t f :
  tablename m = Some t -> valid_table db m = true ->
  In f (fields m) -> f_primary_key f = true ->
  NoDup (column (fname f) (rows_of db t))
  /\ forall r, In r (rows_of db t) ->
               has_type (annotation f) (cell r (fname f)) = true
               /\ is_null (cell r (fname f)) = false.
Proof.
  intros Ht Hvalid Hf Hpk. split.
  - apply (key_column_NoDup db m t Ht Hvalid f Hf); [ | now right ].
    rewrite Hpk. apply orb_true_r.
  - intros r Hr.
    pose proof (valid_table_stored db m t Ht Hvalid f r Hf Hr) as Hs.
    unfold stored_ok in Hs. rewrite Hpk in Hs.
    apply andb_true_iff in Hs. destruct Hs as [Hty Hnn].
    split; [ exact Hty | now apply negb_true_iff in Hnn ].
Qed.

Lemma table_models_have_id :
  forallb (fun m =>
             match tablename m, find_field m "id" with
             | Some _, Some f =>
                 f_primary_key f && (fname f =? "id")
                 && PyType_eqb_simple (base_type (annotation f)) int_t
             | _, _ => false
             end) table_models = true.
Proof. vm_compute. reflexivity. Qed.

Lemma has_type_base_int t v :
  PyType_eqb_simple (base_type t) int_t = true ->
  has_type t v = true -> is_null v = false -> exists i, v = VInt i.
Proof.
  induction t; simpl; try discriminate; intros Hb Ht Hn.
  - destruct v; try discriminate. now eexists.
  - destruct v; try discriminate; auto.
Qed.

Lemma table_id_column db m t :
  valid_db db = true -> In m table_models -> tablename m = Some t ->
  NoDup (column "id" (rows_of db t))
  /\ forall r, In r (rows_of db t) -> exists i, cell r "id" = VInt i.
Proof.
  intros Hv Hm Ht.
  pose proof table_models_have_id as H. rewrite forallb_forall in H.
  specialize (H m Hm). rewrite Ht in H.
  destruct (find_field m "id") as [f | ] eqn:Hf; [ | discriminate ].
  apply andb_true_iff in H. destruct H as [H Hint].
  apply andb_true_iff in H. destruct H as [Hpk _].
  destruct (find_field_some m "id" f Hf) as [Hin Hn].
  destruct (key_column db m t f Ht (valid_db_table db m Hv Hm) Hin Hpk)
    as [Hnd Hcells].
  rewrite Hn in Hnd, Hcells. split; [ exact Hnd | ].
  intros r Hr. destruct (Hcells r Hr) as [Hty Hnn].
  now apply (has_type_base_int (annotation f)).
Qed.

(** In a valid state the [id] column of every table holds integers, none
    NULL, and no two rows of a table share one: an id picks at most one
    row. *)
Theorem primary_keys_distinct (db : DB) (m : ModelDecl) (t : string)
  (Hvalid : valid_db db = true) (Hm : In m table_models)
  (Ht : tablename m = Some t) :
  NoDup (column "id" (rows_of db t))
  /\ (forall r, In r (rows_of db t) -> exists i, cell r "id" = VInt i)
  /\ (forall r r', In r (rows_of db t) -> In r' (rows_of db t) ->
                   cell r "id" = cell r' "id" -> r = r').
Proof.
  destruct (table_id_column db m t Hvalid Hm Ht) as [Hnd Hint].
  split; [ exact Hnd | ]. split; [ exact Hint | ].
  intros r r' Hr Hr' He.
  now apply (NoDup_map_inj_In (fun r => cell r "id") (rows_of db t) Hnd).
Qed.

Lemma primary_keys_distinct_witness :
  NoDup (column "id" (rows_of sample_db "users"))
  /\ (forall r, In r (rows_of sample_db "users") -> exists i, cell r "id" = VInt i)
  /\ (forall r r', In r (rows_of sample_db "users") ->
                   In r' (rows_of sample_db "users") ->
                   cell r "id" = cell r' "id" -> r = r').
Proof.
  apply (primary_keys_distinct sample_db User);
    [ vm_compute; reflexivity | simpl; tauto | reflexivity ].
Defined.

Lemma all_models_foreign_keys_resolve :
  forallb (fun m => forallb foreign_key_resolves (fields m)) all_models = true.
Proof. vm_compute. reflexivity. Qed.

Lemma find_table_table_model t tm :
  find_table t = Some tm -> In tm table_models /\ tablename tm = Some t.
Proof.
  unfold find_table. intros H. apply find_some in H. destruct H as [Hin Ht].
  destruct (tablename tm) as [t' | ] eqn:Htn; [ | discriminate ].
  apply String.eqb_eq in Ht. subst t'. split; [ | reflexivity ].
  unfold all_models in Hin. apply in_app_or in Hin.
  destruct Hin as [Hin | Hin]; [ exact Hin | ].
  exfalso.
  assert (Hnone : forallb (fun s => match tablename s with
                                    | None => true
                                    | Some _ => false
                                    end) api_shapes = true)
    by (vm_compute; reflexivity).
  rewrite forallb_forall in Hnone. specialize (Hnone tm Hin).
  now rewrite Htn in Hnone.
Qed.

(** In a valid state every foreign key of every row names exactly one
    row of the table it refers to: each holding, transaction, alert and
    summary has one existing user, and each holding, transaction, alert
    and price bar one existing stock. *)
Theorem foreign_keys_resolve (db : DB) (m : ModelDecl) (tn : string)
  (f : FieldDecl) (t c : string) (r : Row)
  (Hvalid : valid_db db = true) (Hm : In m table_models)
  (Htn : tablename m = Some tn) (Hf : In f (fields m))
  (Hfk : f_foreign_key f = Some (t, c)) (Hr : In r (rows_of db tn)) :
  exists r',
    In r' (rows_of db t)
    /\ cell r' c = cell r (fname f)
    /\ forall r'', In r'' (rows_of db t) ->
                   cell r'' c = cell r (fname f) -> r'' = r'.
Proof.
  assert (Hma : In m all_models)
    by (unfold all_models; apply in_or_app; now left).
  pose proof all_models_foreign_keys_resolve as Hres.
  rewrite forallb_forall in Hres. specialize (Hres m Hma).
  rewrite forallb_forall in Hres. specialize (Hres f Hf).
  unfold foreign_key_resolves in Hres. rewrite Hfk in Hres.
  destruct (find_table t) as [tm | ] eqn:Htm; [ | discriminate ].
  destruct (find_field tm c) as [g | ] eqn:Hg; [ | discriminate ].
  apply andb_true_iff in Hres. destruct Hres as [Hres Hopt].
  apply andb_true_iff in Hres. destruct Hres as [Hpk _].
  apply negb_true_iff in Hopt.
  destruct (find_table_table_model t tm Htm) as [Htmin Htmt].
  destruct (find_field_some tm c g Hg) as [Hgin Hgn].
  destruct (key_column db tm t g Htmt (valid_db_table db tm Hvalid Htmin) Hgin Hpk)
    as [Hnd _].
  rewrite Hgn in Hnd.
  pose proof (valid_db_table db m Hvalid Hm) as Hvt.
  pose proof (valid_table_not_null db m tn Htn Hvt f r Hf Hr
                (or_introl Hopt)) as Hnn.
  unfold valid_table in Hvt. rewrite Htn in Hvt.
  apply andb_true_iff in Hvt. destruct Hvt as [_ Hcols].
  rewrite forallb_forall in Hcols. specialize (Hcols f Hf).
  apply andb_true_iff in Hcols. destruct Hcols as [_ Hfko].
  unfold foreign_key_ok in Hfko. rewrite Hfk in Hfko.
  rewrite forallb_forall in Hfko.
  specialize (Hfko (cell r (fname f))
                   (in_map (fun r0 => cell r0 (fname f)) _ r Hr)).
  rewrite Hnn in Hfko. simpl in Hfko.
  apply existsb_exists in Hfko. destruct Hfko as [w [Hw Heq]].
  apply Value_eqb_eq in Heq.
  unfold column in Hw. apply in_map_iff in Hw. destruct Hw as [r' [Hc Hr']].
  exists r'. split; [ exact Hr' | ]. split; [ congruence | ].
  intros r'' Hr'' Hc''.
  apply (NoDup_map_inj_In (fun r0 => cell r0 c) (rows_of db t) Hnd);
    [ exact Hr'' | exact Hr' | congruence ].
Qed.

Lemma foreign_keys_resolve_witness :
  exists r',
    In r' (rows_of sample_db "stocks")
    /\ cell r' "id" = cell (hd [] (rows_of sample_db "price_alerts")) "stock_id"
    /\ forall r'', In r'' (rows_of sample_db "stocks") ->
                   cell r'' "id"
                   = cell (hd [] (rows_of sample_db "price_alerts")) "stock_id" ->
                   r'' = r'.
Proof.
  apply (foreign_keys_resolve sample_db PriceAlert "price_alerts"
           (mkField "stock_id" int_t [foreign_key "stocks" "id"; index]));
    [ vm_compute; reflexivity | simpl; tauto | reflexivity | simpl; tauto
    | reflexivity | simpl; tauto ].
Defined.

(** A row that points at a missing user makes the state invalid. *)
Example dangling_user_invalid :
  valid_db (("portfolio_summaries",
             [ [("id", VInt 1); ("user_id", VInt 99);
                ("total_value", D0); ("total_invested", D0);
                ("total_gain_loss", D0); ("total_gain_loss_percent", D0);
                ("day_change", D0); ("day_change_percent", D0);
                ("number_of_holdings", VInt 0);
                ("last_updated", VDatetime 100)] ]) :: sample_db) = false.
Proof. vm_compute. reflexivity. Qed.

(** ** From a validated object to a stored row *)

Lemma primary_key_is_id :
  forallb (fun m => forallb (fun f => implb (f_primary_key f) (fname f =? "id"))
                            (fields m)) table_models = true.
Proof. vm_compute. reflexivity. Qed.

(** A validated object of a table model meets the table's column types;
    it conforms as a stored row exactly when it carries an [id], which
    it does not get by default. *)
Lemma typed_stored_ok f v :
  has_type (annotation f) v = true ->
  stored_ok f v = negb (f_primary_key f && is_null v).
Proof.
  intros Ht. unfold stored_ok. rewrite Ht.
  destruct (f_primary_key f); [ reflexivity | ].
  destruct v; try reflexivity.
  simpl. now apply has_type_None.
Qed.

Theorem validated_row_conforms (lib : Pydantic) (m : ModelDecl) (now : Clock)
  (kw row : Row)
  (Hm : In m table_models) (Hv : validate lib m now kw = Ok row) :
  row_conforms m row = negb (is_null (cell row "id"))
  /\ (lookup kw "id" = None -> row_conforms m row = false).
Proof.
  assert (Hma : In m all_models)
    by (unfold all_models; apply in_or_app; now left).
  assert (Hstored : forall f, In f (fields m) ->
            exists v, lookup row (fname f) = Some v
                      /\ stored_ok f v = negb (f_primary_key f && is_null v)).
  { intros f Hf.
    destruct (validated_field_typed lib m now kw row f Hma Hf Hv)
      as [v [Hl [_ [Ht _]]]].
    exists v. split; [ exact Hl | ]. now apply typed_stored_ok. }
  pose proof table_models_have_id as Hid. rewrite forallb_forall in Hid.
  specialize (Hid m Hm).
  destruct (tablename m) as [t | ]; [ | discriminate ].
  destruct (find_field m "id") as [idf | ] eqn:Hidf; [ | discriminate ].
  apply andb_true_iff in Hid. destruct Hid as [Hid _].
  apply andb_true_iff in Hid. destruct Hid as [Hpk _].
  destruct (find_field_some m "id" idf Hidf) as [Hin Hn].
  assert (Heq : row_conforms m row = negb (is_null (cell row "id"))).
  { destruct (is_null (cell row "id")) eqn:Hnull; simpl.
    - destruct (row_conforms m row) eqn:Hc; [ | reflexivity ].
      unfold row_conforms in Hc. rewrite forallb_forall in Hc.
      specialize (Hc idf Hin).
      destruct (Hstored idf Hin) as [v [Hl Hs]].
      rewrite Hl, Hs, Hpk in Hc. simpl in Hc.
      unfold cell in Hnull. rewrite <- Hn, Hl in Hnull.
      rewrite Hnull in Hc. discriminate.
    - unfold row_conforms. apply forallb_forall. intros f Hf.
      destruct (Hstored f Hf) as [v [Hl Hs]]. rewrite Hl, Hs.
      destruct (f_primary_key f) eqn:Hfpk; [ | reflexivity ].
      pose proof primary_key_is_id as Hk. rewrite forallb_forall in Hk.
      specialize (Hk m Hm). rewrite forallb_forall in Hk.
      specialize (Hk f Hf). rewrite Hfpk in Hk. simpl in Hk.
      apply String.eqb_eq in Hk.
      unfold cell in Hnull. rewrite <- Hk, Hl in Hnull.
      now rewrite Hnull. }
  split; [ exact Heq | ].
  intros Hkw. rewrite Heq.
  assert (Hrow : lookup row "id" = Some VNone).
  { destruct (validate_find lib m now kw row "id" idf Hv Hidf) as [v [Hfv Hl]].
    unfold validate_field, validate_field_with in Hfv.
    rewrite Hn, Hkw in Hfv.
    pose proof (default_revalidates_In m idf Hma Hin) as Hd.
    unfold default_revalidates in Hd.
    destruct (f_default idf) as [ | d | ] eqn:Hdef; try discriminate.
    - injection Hfv as <-.
      assert (Hall : forallb (fun m =>
                match find_field m "id" with
                | Some f => match f_default f with
                            | DefaultValue VNone => true
                            | _ => false
                            end
                | None => false
                end) table_models = true) by (vm_compute; reflexivity).
      rewrite forallb_forall in Hall. specialize (Hall m Hm).
      rewrite Hidf, Hdef in Hall. destruct d; try discriminate. exact Hl.
    - exfalso.
      assert (Hall : forallb (fun m =>
                match find_field m "id" with
                | Some f => match f_default f with
                            | DefaultValue VNone => true
                            | _ => false
                            end
                | None => false
                end) table_models = true) by (vm_compute; reflexivity).
      rewrite forallb_forall in Hall. specialize (Hall m Hm).
      rewrite Hidf, Hdef in Hall. discriminate. }
  unfold cell. now rewrite Hrow.
Qed.

Lemma validated_row_conforms_witness :
  row_conforms PortfolioSummary
    [("id", VInt 3); ("user_id", VInt 1);
     ("total_value", VDecimal (mkDecimal 0 0));
     ("total_invested", VDecimal (mkDecimal 0 0));
     ("total_gain_loss", VDecimal (mkDecimal 0 0));
     ("total_gain_loss_percent", VDecimal (mkDecimal 0 0));
     ("day_change", VDecimal (mkDecimal 0 0));
     ("day_change_percent", VDecimal (mkDecimal 0 0));
     ("number_of_holdings", VInt 0); ("last_updated", VDatetime 100)]
  = negb (is_null (VInt 3)).
Proof.
  apply (proj1 (validated_row_conforms pydantic_2 PortfolioSummary sample_clock
                  [("id", VInt 3); ("user_id", VInt 1)] _
                  (or_intror (or_intror (or_intror (or_intror
                     (or_intror (or_intror (or_introl eq_refl)))))))
                  eq_refl)).
Defined.
